(** * api-gateway-cache: the two backend services and the gateway core

    The definitions come first.

    - [Js]: the fragment of the JavaScript runtime that the Express
      handlers rely on (truthiness, [ToNumber], [parseInt], [parseFloat],
      [===], [Math.max], [Array.prototype.slice], ...).
    - [Http]: methods, responses and the middleware that both services
      have.
    - [UserService]: the handlers of the user service.
    - [ProductService]: the handlers of services/product-service/server.js.
    - [CacheStore], [KeyBuilder], [RouteTable], [Router]: the routing and
      caching core of the gateway.
    - [Samples]: data for the examples.

    The properties follow, the runtime first, then the two services, then
    the gateway.

    Numbers are IEEE doubles in the runtime; here a finite number is an
    exact rational, so rounding, overflow to Infinity and the negative zero
    are not represented.  Strings are byte strings: case mapping and white
    space are those of ASCII. *)

From Stdlib Require Import ZArith QArith Qround Qabs Ascii String.
From stdpp Require Import base option list strings sorting gmap.

Set Warnings "-register-all".

Local Open Scope string_scope.
Local Open Scope Z_scope.

(* ================================================================== *)
(** * The JavaScript runtime fragment *)
(* ================================================================== *)

Module Js.

(** ** Numbers *)

Inductive number : Type :=
| NaN
| PInf
| NInf
| Fin (q : Q).

Definition of_Z (z : Z) : number := Fin (inject_Z z).
Definition of_nat (n : nat) : number := of_Z (Z.of_nat n).

Definition zero : number := of_Z 0.
Definition one : number := of_Z 1.

(** Sign of a number: [Lt] negative, [Eq] zero, [Gt] positive. *)
Definition sign (q : Q) : comparison := (Qnum q ?= 0)%Z.

Definition add (a b : number) : number :=
  match a, b with
  | NaN, _ | _, NaN => NaN
  | PInf, NInf | NInf, PInf => NaN
  | PInf, _ | _, PInf => PInf
  | NInf, _ | _, NInf => NInf
  | Fin x, Fin y => Fin (Qred (x + y))
  end.

Definition sub (a b : number) : number :=
  match a, b with
  | NaN, _ | _, NaN => NaN
  | PInf, PInf | NInf, NInf => NaN
  | PInf, _ | _, NInf => PInf
  | NInf, _ | _, PInf => NInf
  | Fin x, Fin y => Fin (Qred (x - y))
  end.

Definition inf_of (c : comparison) : number :=
  match c with Lt => NInf | Eq => NaN | Gt => PInf end.

Definition sign_of (a : number) : comparison :=
  match a with
  | NaN => Eq
  | PInf => Gt
  | NInf => Lt
  | Fin q => sign q
  end.

Definition sign_mul (c d : comparison) : comparison :=
  match c, d with
  | Eq, _ | _, Eq => Eq
  | Lt, Lt | Gt, Gt => Gt
  | _, _ => Lt
  end.

Definition mul (a b : number) : number :=
  match a, b with
  | NaN, _ | _, NaN => NaN
  | Fin x, Fin y => Fin (Qred (x * y))
  | _, _ => inf_of (sign_mul (sign_of a) (sign_of b))
  end.

Definition div (a b : number) : number :=
  match a, b with
  | NaN, _ | _, NaN => NaN
  | Fin x, Fin y =>
      match sign y with
      | Eq => inf_of (sign x)
      | _ => Fin (Qred (x / y))
      end
  | Fin _, _ => zero
  | _, Fin y =>
      match sign y with
      | Lt => inf_of (sign_mul (sign_of a) Lt)
      | _ => a
      end
  | _, _ => NaN
  end.

(** [a < b]; false as soon as one side is NaN. *)
Definition ltb (a b : number) : bool :=
  match a, b with
  | NaN, _ | _, NaN => false
  | _, NInf | PInf, _ => false
  | NInf, _ | _, PInf => true
  | Fin x, Fin y => negb (Qle_bool y x)
  end.

(** [a <= b]; false as soon as one side is NaN. *)
Definition leb (a b : number) : bool :=
  match a, b with
  | NaN, _ | _, NaN => false
  | NInf, _ | _, PInf => true
  | _, NInf | PInf, _ => false
  | Fin x, Fin y => Qle_bool x y
  end.

(** Numeric equality, the [===] of two numbers. *)
Definition eqb (a b : number) : bool :=
  match a, b with
  | PInf, PInf | NInf, NInf => true
  | Fin x, Fin y => Qeq_bool x y
  | _, _ => false
  end.

Definition is_nan (a : number) : bool :=
  match a with NaN => true | _ => false end.

(** [Math.max(a, b)]. *)
Definition Math_max (a b : number) : number :=
  match a, b with
  | NaN, _ | _, NaN => NaN
  | _, _ => if ltb a b then b else a
  end.

(** [Math.ceil(a)]. *)
Definition Math_ceil (a : number) : number :=
  match a with
  | Fin q => of_Z (Qceiling q)
  | _ => a
  end.

(** Truncation towards zero. *)
Definition Qtrunc (q : Q) : Z := Z.quot (Qnum q) (Zpos (Qden q)).

(** [m * 10^e] as a number. *)
Definition scale10 (m e : Z) : number :=
  if 0 <=? e then Fin (inject_Z (m * 10 ^ e))
  else Fin (Qred (Qmake m (Z.to_pos (10 ^ (- e))))).

(** ** Strings read as numbers *)

Definition code (c : ascii) : Z := Z.of_N (N_of_ascii c).

(** White space skipped by [parseInt], [parseFloat] and [ToNumber]. *)
Definition is_space (c : ascii) : bool :=
  let n := code c in (n =? 32) || ((9 <=? n) && (n <=? 13)).

Fixpoint trim_start (s : string) : string :=
  match s with
  | String c s' => if is_space c then trim_start s' else s
  | EmptyString => s
  end.

Fixpoint all_space (s : string) : bool :=
  match s with
  | String c s' => is_space c && all_space s'
  | EmptyString => true
  end.

(** Value of the character [c] as a digit in base [radix]. *)
Definition digit (radix : Z) (c : ascii) : option Z :=
  let n := code c in
  let d :=
    if (48 <=? n) && (n <=? 57) then n - 48
    else if (97 <=? n) && (n <=? 122) then n - 87
    else if (65 <=? n) && (n <=? 90) then n - 55
    else radix in
  if d <? radix then Some d else None.

(** Longest run of digits at the head of [s]: its value after [acc],
    the number of digits read, and what follows. *)
Fixpoint digits (radix : Z) (s : string) (acc : Z) (cnt : nat)
  : Z * nat * string :=
  match s with
  | String c s' =>
      match digit radix c with
      | Some d => digits radix s' (acc * radix + d) (S cnt)
      | None => (acc, cnt, s)
      end
  | EmptyString => (acc, cnt, s)
  end.

Definition take_sign (s : string) : Z * string :=
  match s with
  | String "-" r => (-1, r)
  | String "+" r => (1, r)
  | _ => (1, s)
  end.

(** [parseInt(s)] for a string, radix left out. *)
Definition parseInt_str (s : string) : number :=
  let '(sg, s1) := take_sign (trim_start s) in
  let '(radix, s2) :=
    match s1 with
    | String "0" (String "x" r) | String "0" (String "X" r) => (16, r)
    | _ => (10, s1)
    end in
  let '(n, cnt, _) := digits radix s2 0 0 in
  match cnt with
  | O => NaN
  | S _ => of_Z (sg * n)
  end.

Fixpoint strip_prefix (p s : string) : option string :=
  match p, s with
  | EmptyString, _ => Some s
  | String a p', String b s' =>
      if Ascii.eqb a b then strip_prefix p' s' else None
  | String _ _, EmptyString => None
  end.

(** Exponent part [e[+-]ddd]; it is read only when it has a digit. *)
Definition parse_exponent (s : string) : Z * string :=
  match s with
  | String "e" r | String "E" r =>
      let '(sg, r1) := take_sign r in
      let '(n, cnt, r2) := digits 10 r1 0 0 in
      match cnt with
      | O => (0, s)
      | S _ => (sg * n, r2)
      end
  | _ => (0, s)
  end.

(** Longest prefix of [s] that is a signed decimal literal
    ([Infinity], [12], [12.], [12.5], [.5], each with an optional
    exponent), with what follows it. *)
Definition parse_decimal (s : string) : option (number * string) :=
  let '(sg, s1) := take_sign s in
  match strip_prefix "Infinity" s1 with
  | Some r => Some (if sg <? 0 then NInf else PInf, r)
  | None =>
      let '(ip, ni, s2) := digits 10 s1 0 0 in
      let '(m, nf, s3) :=
        match s2 with
        | String "." r =>
            let '(m, nf, r') := digits 10 r ip 0 in
            match ni, nf with
            | O, O => (ip, O, s2)
            | _, _ => (m, nf, r')
            end
        | _ => (ip, O, s2)
        end in
      match ni, nf with
      | O, O => None
      | _, _ =>
          let '(e, s4) := parse_exponent s3 in
          Some (scale10 (sg * m) (e - Z.of_nat nf), s4)
      end
  end.

(** [parseFloat(s)] for a string. *)
Definition parseFloat_str (s : string) : number :=
  match parse_decimal (trim_start s) with
  | Some (n, _) => n
  | None => NaN
  end.

(** Unsigned literal in base 16, 8 or 2: [0x1f], [0o17], [0b101]. *)
Definition parse_radix_literal (s : string) : option (number * string) :=
  let lit radix r :=
    let '(n, cnt, r') := digits radix r 0 0 in
    match cnt with
    | O => None
    | S _ => Some (of_Z n, r')
    end in
  match s with
  | String "0" (String "x" r) | String "0" (String "X" r) => lit 16 r
  | String "0" (String "o" r) | String "0" (String "O" r) => lit 8 r
  | String "0" (String "b" r) | String "0" (String "B" r) => lit 2 r
  | _ => None
  end.

(** [Number(s)]: the whole string, white space at both ends apart, has
    to be a numeric literal; the empty string is 0. *)
Definition StringToNumber (s : string) : number :=
  let t := trim_start s in
  match t with
  | EmptyString => zero
  | _ =>
      let whole r :=
        match r with
        | Some (n, rest) => if all_space rest then Some n else None
        | None => None
        end in
      match whole (parse_radix_literal t) with
      | Some n => n
      | None =>
          match whole (parse_decimal t) with
          | Some n => n
          | None => NaN
          end
      end
  end.

(** ** Values *)

Inductive value : Type :=
| VUndefined
| VNull
| VBool (b : bool)
| VNum (n : number)
| VStr (s : string)
| VArr (items : list value)
| VObj (fields : list (string * value)).

(** [!!v] *)
Definition truthy (v : value) : bool :=
  match v with
  | VUndefined | VNull => false
  | VBool b => b
  | VNum (Fin q) => negb (Qeq_bool q 0)
  | VNum NaN => false
  | VNum _ => true
  | VStr s => negb (String.eqb s "")
  | VArr _ | VObj _ => true
  end.

(** [v === undefined] *)
Definition is_undefined (v : value) : bool :=
  match v with VUndefined => true | _ => false end.

(** The default of a destructuring pattern, [{ x = d }]. *)
Definition default_to (d v : value) : value :=
  if is_undefined v then d else v.

(** [a === b].  Arrays and objects are equal only to themselves; the
    handlers compare a stored value with one parsed from the current
    request, so two of them are never the same object. *)
Definition strict_eq (a b : value) : bool :=
  match a, b with
  | VUndefined, VUndefined | VNull, VNull => true
  | VBool x, VBool y => Bool.eqb x y
  | VNum x, VNum y => eqb x y
  | VStr x, VStr y => String.eqb x y
  | _, _ => false
  end.

(** Printing a value, [String(v)], goes through its [toString] method.
    An object parsed from JSON that has a member of that name has lost
    the method, and printing it raises a TypeError; an array prints each
    of its elements. *)
Fixpoint printable (v : value) : bool :=
  match v with
  | VObj fs => negb (existsb (λ kv, String.eqb kv.1 "toString") fs)
  | VArr items => forallb printable items
  | _ => true
  end.

(** The number that a printable value converts to.  An array is first
    joined with commas: the empty array reads as the empty string, a
    one-element array as its element (null and undefined as the empty
    string), a longer one has a comma and is no number.  An object prints
    as [[object Object]]. *)
Fixpoint to_number (v : value) : number :=
  match v with
  | VUndefined => NaN
  | VNull => zero
  | VBool b => if b then one else zero
  | VNum n => n
  | VStr s => StringToNumber s
  | VArr [] => zero
  | VArr [x] =>
      match x with
      | VUndefined | VNull => zero
      | VBool _ | VObj _ => NaN
      | _ => to_number x
      end
  | VArr _ => NaN
  | VObj _ => NaN
  end.

(** Leading decimal digit of a positive integer. *)
Fixpoint lead_digit (fuel : nat) (z : Z) : Z :=
  match fuel with
  | O => z
  | S f => if z <? 10 then z else lead_digit f (z / 10)
  end.

(** First significant digit of a positive rational below 1. *)
Fixpoint first_digit (fuel : nat) (q : Q) : Z :=
  match fuel with
  | O => 0
  | S f =>
      let d := Qfloor (q * 10) in
      if 0 <? d then d else first_digit f (q * 10)
  end.

(** [parseInt(n)] for a number: the number is printed and its integer
    prefix read back.  From 1e-6 up to 1e21 the number prints in
    positional notation and the prefix is its integer part; outside it
    prints as [d.ddde+x] and the prefix is the digit [d]. *)
Definition parseInt_num (n : number) : number :=
  match n with
  | Fin q =>
      let a := Qabs q in
      let s := match sign q with Lt => -1 | _ => 1 end in
      if Qle_bool (inject_Z (10 ^ 21)) a then
        of_Z (s * lead_digit (Z.to_nat (Z.log2 (Qfloor a))) (Qfloor a))
      else if Qeq_bool a 0 || Qle_bool (Qmake 1 (10 ^ 6)) a then
        of_Z (Qtrunc q)
      else
        of_Z (s * first_digit (S (Pos.size_nat (Qden a))) a)
  | _ => NaN
  end.

(** The integer that [parseInt] reads from a printable value.  The value
    is printed first: an array prints its elements separated by commas
    (null and undefined as nothing), so only its first element can
    contribute digits. *)
Fixpoint parse_int (v : value) : number :=
  match v with
  | VNum n => parseInt_num n
  | VStr s => parseInt_str s
  | VArr (x :: _) =>
      match x with
      | VUndefined | VNull => NaN
      | _ => parse_int x
      end
  | _ => NaN
  end.

(** The number that [parseFloat] reads from a printable value; a number
    prints to a literal that reads back as itself. *)
Fixpoint parse_float (v : value) : number :=
  match v with
  | VNum n => n
  | VStr s => parseFloat_str s
  | VArr (x :: _) =>
      match x with
      | VUndefined | VNull => NaN
      | _ => parse_float x
      end
  | _ => NaN
  end.

(** [Number(v)], [parseInt(v)] and [parseFloat(v)]: [None] when the
    conversion raises. *)
Definition ToNumber (v : value) : option number :=
  if printable v then Some (to_number v) else None.
Definition parseInt (v : value) : option number :=
  if printable v then Some (parse_int v) else None.
Definition parseFloat (v : value) : option number :=
  if printable v then Some (parse_float v) else None.

(** [a <= b] with a number on the right: the left side is converted
    with [ToNumber]. *)
Definition le_num (a : value) (b : number) : option bool :=
  n ← ToNumber a; Some (leb n b).
(** [a >= b] of two numbers. *)
Definition ge_num (a : number) (b : number) : bool := leb b a.

(** ** Arrays *)

(** Index relative to a length, as [slice] reads its arguments. *)
Definition relIndex (n : number) (len : Z) : Z :=
  match n with
  | NaN | NInf => 0
  | PInf => len
  | Fin q =>
      let i := Qtrunc q in
      if i <? 0 then Z.max (len + i) 0 else Z.min i len
  end.

(** [l.slice(s, e)] *)
Definition slice {A} (l : list A) (s e : number) : list A :=
  let len := Z.of_nat (length l) in
  let k := relIndex s len in
  let f := relIndex e len in
  take (Z.to_nat (f - k)) (drop (Z.to_nat k) l).

(** [l.findIndex(p)], [None] for -1. *)
Fixpoint findIndex {A} (p : A -> bool) (l : list A) : option nat :=
  match l with
  | [] => None
  | x :: l' => if p x then Some O else S <$> findIndex p l'
  end.

(** [l.splice(i, 1)]: the array without its element [i]. *)
Definition splice1 {A} (i : nat) (l : list A) : list A :=
  take i l ++ drop (S i) l.

(** ** String methods *)

Definition lower (c : ascii) : ascii :=
  let n := code c in
  if (65 <=? n) && (n <=? 90) then ascii_of_N (Z.to_N (n + 32)) else c.

Fixpoint toLowerCase (s : string) : string :=
  match s with
  | String c s' => String (lower c) (toLowerCase s')
  | EmptyString => EmptyString
  end.

(** [s.includes(t)] *)
Fixpoint includes (s t : string) : bool :=
  match strip_prefix t s with
  | Some _ => true
  | None =>
      match s with
      | String _ s' => includes s' t
      | EmptyString => false
      end
  end.

(** Field of an object, [undefined] when it has none of that name. *)
Fixpoint field (k : string) (fs : list (string * value)) : value :=
  match fs with
  | [] => VUndefined
  | (k', v) :: fs' => if String.eqb k k' then v else field k fs'
  end.

Definition get (k : string) (v : value) : value :=
  match v with
  | VObj fs => field k fs
  | _ => VUndefined
  end.

Definition has_field (k : string) (v : value) : bool :=
  match v with
  | VObj fs => bool_decide (k ∈ fs.*1)
  | _ => false
  end.

End Js.

(* ================================================================== *)
(** * What the two Express applications share *)
(* ================================================================== *)

Module Http.
Import Js.

Inductive method : Type := GET | HEAD | POST | PUT | PATCH | DELETE | OPTIONS.

Definition method_eqb (a b : method) : bool :=
  match a, b with
  | GET, GET | HEAD, HEAD | POST, POST | PUT, PUT
  | PATCH, PATCH | DELETE, DELETE | OPTIONS, OPTIONS => true
  | _, _ => false
  end.

(** The methods whose handlers write: POST, PUT, PATCH and DELETE. *)
Definition is_mutating (m : method) : bool :=
  match m with
  | POST | PUT | PATCH | DELETE => true
  | _ => false
  end.

(** A response: the status code and the object handed to [res.json]. *)
Record response : Type := Response { statusCode : Z; body : value }.

(** What a handler reads from its surroundings: the clock
    ([new Date().toISOString()]), the identifier drawn by [uuidv4()] and
    [process.uptime()]. *)
Record Env : Type := { now : string; uuid : string; uptime : number }.

(** [res.json(b)], the status left at 200. *)
Definition json (b : value) : response := Response 200 b.
(** [res.status(c).json(b)] *)
Definition status_json (c : Z) (b : value) : response := Response c b.

Definition error_body (e m : string) : value :=
  VObj [("error", VStr e); ("message", VStr m)].

(** The error-handling middleware: an exception raised by a handler
    ends in a 500. *)
Definition internal_error : response :=
  status_json 500 (error_body "Internal Server Error" "Something went wrong!").

(** A handler that raises is caught by Express and ends there. *)
Definition caught (r : option response) : response :=
  match r with
  | Some x => x
  | None => internal_error
  end.

(** The final [app.use('*', ...)]. *)
Definition not_found : response :=
  status_json 404
    (error_body "Not Found" "The requested resource was not found").

(** [v.toLowerCase()]: only a string has the method, on anything else
    the call raises a TypeError ([None]). *)
Definition toLowerCase_of (v : value) : option string :=
  match v with
  | VStr s => Some (toLowerCase s)
  | _ => None
  end.

(** [l.filter(p)] for a predicate that may raise. *)
Fixpoint filter_raising {A} (p : A -> option bool) (l : list A)
  : option (list A) :=
  match l with
  | [] => Some []
  | x :: l' =>
      b ← p x;
      r ← filter_raising p l';
      Some (if b : bool then x :: r else r)
  end.

(** [a || b] over computations that may raise: [b] runs only when [a]
    is false. *)
Definition or_else (a b : option bool) : option bool :=
  x ← a; if x : bool then Some true else b.

(** Equality of the elements of a [Set]: [===], except that NaN is the
    same as NaN. *)
Definition same_value_zero (a b : value) : bool :=
  match a, b with
  | VNum NaN, VNum NaN => true
  | _, _ => strict_eq a b
  end.

(** [[...new Set(l)]]: first occurrences, in order.  It is used on the
    categories of distinct products, so an array or object met twice is
    never the same object and is kept. *)
Fixpoint distinct_from (seen l : list value) : list value :=
  match l with
  | [] => []
  | x :: l' =>
      if existsb (same_value_zero x) seen then distinct_from seen l'
      else x :: distinct_from (x :: seen) l'
  end.

Definition distinct (l : list value) : list value := distinct_from [] l.

End Http.

(* ================================================================== *)
(** * The user service *)
(* ================================================================== *)

(** The server.js of the user service is the second document of
    src/Makefile, from its line 174 on. *)

Module UserService.
Import Js Http.

Record User : Type := {
  id : string;
  name : value;
  email : value;
  role : value;
  createdAt : string;
  updatedAt : option string
}.

(** The mock database as the module leaves it at load time [t]. *)
Definition users (t : string) : list User :=
  [ {| id := "1"; name := VStr "João Silva";
       email := VStr "joao@example.com"; role := VStr "admin";
       createdAt := t; updatedAt := None |};
    {| id := "2"; name := VStr "Maria Santos";
       email := VStr "maria@example.com"; role := VStr "user";
       createdAt := t; updatedAt := None |};
    {| id := "3"; name := VStr "Pedro Oliveira";
       email := VStr "pedro@example.com"; role := VStr "user";
       createdAt := t; updatedAt := None |} ].

(** A user as the object that reaches [res.json]. *)
Definition user_json (u : User) : value :=
  VObj ([ ("id", VStr (id u)); ("name", name u); ("email", email u);
          ("role", role u); ("createdAt", VStr (createdAt u)) ]
        ++ match updatedAt u with
           | Some t => [("updatedAt", VStr t)]
           | None => []
           end).

Definition set_name (v : value) (u : User) : User :=
  {| id := id u; name := v; email := email u; role := role u;
     createdAt := createdAt u; updatedAt := updatedAt u |}.
Definition set_email (v : value) (u : User) : User :=
  {| id := id u; name := name u; email := v; role := role u;
     createdAt := createdAt u; updatedAt := updatedAt u |}.
Definition set_role (v : value) (u : User) : User :=
  {| id := id u; name := name u; email := email u; role := v;
     createdAt := createdAt u; updatedAt := updatedAt u |}.
Definition set_updatedAt (t : string) (u : User) : User :=
  {| id := id u; name := name u; email := email u; role := role u;
     createdAt := createdAt u; updatedAt := Some t |}.

(** A request once Express has picked its route: the fields that the
    handler destructures from [req.query], [req.params] and [req.body],
    [VUndefined] for a field that is not there. *)
Inductive request : Type :=
| Health
| ListUsers (page limit role : value)
| GetUser (id : string)
| CreateUser (name email role : value)
| UpdateUser (id : string) (name email role : value)
| DeleteUser (id : string)
| SearchUsers (query : string)
| Unrouted (m : method).

Definition method_of (r : request) : method :=
  match r with
  | Health | ListUsers _ _ _ | GetUser _ | SearchUsers _ => GET
  | CreateUser _ _ _ => POST
  | UpdateUser _ _ _ _ => PUT
  | DeleteUser _ => DELETE
  | Unrouted m => m
  end.

Definition user_not_found (i : string) : response :=
  status_json 404
    (error_body "User not found"
       ("User with ID " ++ i ++ " does not exist")).

(** [app.get('/health')] *)
Definition get_health (env : Env) : response :=
  json (VObj [ ("status", VStr "healthy");
               ("service", VStr "user-service");
               ("timestamp", VStr (now env));
               ("uptime", VNum (uptime env)) ]).

(** [app.get('/users')] *)
Definition get_users (page0 limit0 role : value) (users : list User)
  : response :=
  let page := default_to (VNum (of_Z 1)) page0 in
  let limit := default_to (VNum (of_Z 10)) limit0 in
  let filteredUsers :=
    if truthy role
    then List.filter (fun user => strict_eq (UserService.role user) role) users
    else users in
  caught (
    p ← ToNumber page;
    l ← ToNumber limit;
    let startIndex := mul (sub p one) l in
    let endIndex := mul p l in
    let paginatedUsers := slice filteredUsers startIndex endIndex in
    pageInt ← parseInt page;
    limitInt ← parseInt limit;
    Some (json (VObj
      [ ("data", VArr (map user_json paginatedUsers));
        ("pagination", VObj
           [ ("page", VNum pageInt);
             ("limit", VNum limitInt);
             ("total", VNum (of_nat (length filteredUsers)));
             ("pages", VNum (Math_ceil
                (div (of_nat (length filteredUsers)) l))) ]) ]))).

(** [app.get('/users/:id')] *)
Definition get_user (i : string) (users : list User) : response :=
  match List.find (fun u => String.eqb (id u) i) users with
  | None => user_not_found i
  | Some user => json (VObj [("data", user_json user)])
  end.

(** [app.post('/users')] *)
Definition post_users (env : Env) (name email role0 : value)
    (users : list User) : response * list User :=
  let role := default_to (VStr "user") role0 in
  if negb (truthy name) || negb (truthy email) then
    (status_json 400
       (error_body "Validation error" "Name and email are required"),
     users)
  else
    match List.find (fun u => strict_eq (UserService.email u) email) users with
    | Some existingUser =>
        (status_json 409
           (error_body "Conflict" "User with this email already exists"),
         users)
    | None =>
        let newUser :=
          {| id := uuid env; name := name; email := email; role := role;
             createdAt := now env; updatedAt := None |} in
        (status_json 201
           (VObj [ ("data", user_json newUser);
                   ("message", VStr "User created successfully") ]),
         (users ++ [newUser])%list)
    end.

(** [users[i]] as it is sent back. *)
Definition at_json (i : nat) (users : list User) : value :=
  match users !! i with
  | Some u => user_json u
  | None => VUndefined
  end.

(** [app.put('/users/:id')] *)
Definition put_user (env : Env) (i : string) (name email role : value)
    (users : list User) : response * list User :=
  match findIndex (fun u => String.eqb (id u) i) users with
  | None => (user_not_found i, users)
  | Some userIndex =>
      let users1 :=
        if truthy name then alter (set_name name) userIndex users
        else users in
      let users2 :=
        if truthy email then alter (set_email email) userIndex users1
        else users1 in
      let users3 :=
        if truthy role then alter (set_role role) userIndex users2
        else users2 in
      let users4 := alter (set_updatedAt (now env)) userIndex users3 in
      (json (VObj [ ("data", at_json userIndex users4);
                    ("message", VStr "User updated successfully") ]),
       users4)
  end.

(** [app.delete('/users/:id')] *)
Definition delete_user (i : string) (users : list User)
  : response * list User :=
  match findIndex (fun u => String.eqb (id u) i) users with
  | None => (user_not_found i, users)
  | Some userIndex =>
      let deletedUser := at_json userIndex users in
      (json (VObj [ ("data", deletedUser);
                    ("message", VStr "User deleted successfully") ]),
       splice1 userIndex users)
  end.

(** [app.get('/users/search/:query')] *)
Definition search_users (query : string) (users : list User) : response :=
  let hit (v : value) : option bool :=
    s ← toLowerCase_of v; Some (includes s (toLowerCase query)) in
  caught (
    searchResults ←
      filter_raising
        (fun user => or_else (hit (name user)) (hit (email user))) users;
    Some (json (VObj [ ("data", VArr (map user_json searchResults));
                       ("query", VStr query);
                       ("count", VNum (of_nat (length searchResults))) ]))).

(** The application: the handler of the route runs on the current
    [users] and leaves the next ones. *)
Definition handle (env : Env) (r : request) (users : list User)
  : response * list User :=
  match r with
  | Health => (get_health env, users)
  | ListUsers page limit role => (get_users page limit role users, users)
  | GetUser i => (get_user i users, users)
  | CreateUser name email role => post_users env name email role users
  | UpdateUser i name email role => put_user env i name email role users
  | DeleteUser i => delete_user i users
  | SearchUsers query => (search_users query users, users)
  | Unrouted _ => (not_found, users)
  end.

End UserService.

(* ================================================================== *)
(** * The product service (services/product-service/server.js) *)
(* ================================================================== *)

Module ProductService.
Import Js Http.

Record Product : Type := {
  id : string;
  name : value;
  description : value;
  price : number;
  category : value;
  stock : number;
  createdAt : string;
  updatedAt : option string
}.

(** The mock database as the module leaves it at load time [t]. *)
Definition products (t : string) : list Product :=
  [ {| id := "1"; name := VStr "Smartphone Galaxy";
       description := VStr "Smartphone Android com 128GB de armazenamento";
       price := Fin (89999 # 100); category := VStr "electronics";
       stock := of_Z 50; createdAt := t; updatedAt := None |};
    {| id := "2"; name := VStr "Notebook Dell";
       description := VStr "Notebook Dell Inspiron 15 com Intel i5";
       price := Fin (249999 # 100); category := VStr "electronics";
       stock := of_Z 25; createdAt := t; updatedAt := None |};
    {| id := "3"; name := VStr "Camiseta Básica";
       description := VStr "Camiseta 100% algodão, várias cores";
       price := Fin (2999 # 100); category := VStr "clothing";
       stock := of_Z 100; createdAt := t; updatedAt := None |};
    {| id := "4"; name := VStr "Livro JavaScript";
       description := VStr "Guia completo de JavaScript moderno";
       price := Fin (5999 # 100); category := VStr "books";
       stock := of_Z 30; createdAt := t; updatedAt := None |} ].

(** A product as the object that reaches [res.json]. *)
Definition product_json (p : Product) : value :=
  VObj ([ ("id", VStr (id p)); ("name", name p);
          ("description", description p); ("price", VNum (price p));
          ("category", category p); ("stock", VNum (stock p));
          ("createdAt", VStr (createdAt p)) ]
        ++ match updatedAt p with
           | Some t => [("updatedAt", VStr t)]
           | None => []
           end).

Definition set_name (v : value) (p : Product) : Product :=
  {| id := id p; name := v; description := description p;
     price := price p; category := category p; stock := stock p;
     createdAt := createdAt p; updatedAt := updatedAt p |}.
Definition set_description (v : value) (p : Product) : Product :=
  {| id := id p; name := name p; description := v;
     price := price p; category := category p; stock := stock p;
     createdAt := createdAt p; updatedAt := updatedAt p |}.
Definition set_price (n : number) (p : Product) : Product :=
  {| id := id p; name := name p; description := description p;
     price := n; category := category p; stock := stock p;
     createdAt := createdAt p; updatedAt := updatedAt p |}.
Definition set_category (v : value) (p : Product) : Product :=
  {| id := id p; name := name p; description := description p;
     price := price p; category := v; stock := stock p;
     createdAt := createdAt p; updatedAt := updatedAt p |}.
Definition set_stock (n : number) (p : Product) : Product :=
  {| id := id p; name := name p; description := description p;
     price := price p; category := category p; stock := n;
     createdAt := createdAt p; updatedAt := updatedAt p |}.
Definition set_updatedAt (t : string) (p : Product) : Product :=
  {| id := id p; name := name p; description := description p;
     price := price p; category := category p; stock := stock p;
     createdAt := createdAt p; updatedAt := Some t |}.

(** A request once Express has picked its route: the fields that the
    handler destructures from [req.query], [req.params] and [req.body],
    [VUndefined] for a field that is not there. *)
Inductive request : Type :=
| Health
| ListProducts (page limit category minPrice maxPrice : value)
| GetProduct (id : string)
| CreateProduct (name description price category stock : value)
| UpdateProduct (id : string) (name description price category stock : value)
| DeleteProduct (id : string)
| SearchProducts (query : string)
| Categories
| UpdateStock (id : string) (quantity operation : value)
| Unrouted (m : method).

Definition method_of (r : request) : method :=
  match r with
  | Health | ListProducts _ _ _ _ _ | GetProduct _
  | SearchProducts _ | Categories => GET
  | CreateProduct _ _ _ _ _ => POST
  | UpdateProduct _ _ _ _ _ _ => PUT
  | DeleteProduct _ => DELETE
  | UpdateStock _ _ _ => PATCH
  | Unrouted m => m
  end.

Definition product_not_found (i : string) : response :=
  status_json 404
    (error_body "Product not found"
       ("Product with ID " ++ i ++ " does not exist")).

(** [app.get('/health')] *)
Definition get_health (env : Env) : response :=
  json (VObj [ ("status", VStr "healthy");
               ("service", VStr "product-service");
               ("timestamp", VStr (now env));
               ("uptime", VNum (uptime env)) ]).

(** [app.get('/products')] *)
Definition get_products (page0 limit0 category minPrice maxPrice : value)
    (products : list Product) : response :=
  let page := default_to (VNum (of_Z 1)) page0 in
  let limit := default_to (VNum (of_Z 10)) limit0 in
  let filteredProducts := products in
  let filteredProducts :=
    if truthy category
    then List.filter
           (fun product => strict_eq (ProductService.category product) category)
           filteredProducts
    else filteredProducts in
  caught (
    filteredProducts ←
      (if truthy minPrice
       then filter_raising
              (fun product =>
                 x ← parseFloat minPrice; Some (ge_num (price product) x))
              filteredProducts
       else Some filteredProducts);
    filteredProducts ←
      (if truthy maxPrice
       then filter_raising
              (fun product =>
                 x ← parseFloat maxPrice; Some (leb (price product) x))
              filteredProducts
       else Some filteredProducts);
    p ← ToNumber page;
    l ← ToNumber limit;
    let startIndex := mul (sub p one) l in
    let endIndex := mul p l in
    let paginatedProducts := slice filteredProducts startIndex endIndex in
    pageInt ← parseInt page;
    limitInt ← parseInt limit;
    Some (json (VObj
      [ ("data", VArr (map product_json paginatedProducts));
        ("pagination", VObj
           [ ("page", VNum pageInt);
             ("limit", VNum limitInt);
             ("total", VNum (of_nat (length filteredProducts)));
             ("pages", VNum (Math_ceil
                (div (of_nat (length filteredProducts)) l))) ]) ]))).

(** [app.get('/products/:id')] *)
Definition get_product (i : string) (products : list Product) : response :=
  match List.find (fun p => String.eqb (id p) i) products with
  | None => product_not_found i
  | Some product => json (VObj [("data", product_json product)])
  end.

(** [app.post('/products')] *)
Definition post_products (env : Env)
    (name description price category stock0 : value)
    (products : list Product) : response * list Product :=
  let stock := default_to (VNum (of_Z 0)) stock0 in
  if negb (truthy name) || negb (truthy description)
     || negb (truthy price) || negb (truthy category) then
    (status_json 400
       (error_body "Validation error"
          "Name, description, price, and category are required"),
     products)
  else
    match le_num price zero with
    | None => (internal_error, products)
    | Some true =>
        (status_json 400
           (error_body "Validation error" "Price must be greater than 0"),
         products)
    | Some false =>
        match parseFloat price, parseInt stock with
        | Some price', Some stock' =>
            let newProduct :=
              {| id := uuid env; name := name; description := description;
                 price := price'; category := category;
                 stock := stock'; createdAt := now env;
                 updatedAt := None |} in
            (status_json 201
               (VObj [ ("data", product_json newProduct);
                       ("message", VStr "Product created successfully") ]),
             (products ++ [newProduct])%list)
        | _, _ => (internal_error, products)
        end
    end.

(** [products[i]] as it is sent back. *)
Definition at_json (i : nat) (products : list Product) : value :=
  match products !! i with
  | Some p => product_json p
  | None => VUndefined
  end.

(** [app.put('/products/:id')] *)
Definition put_product (env : Env) (i : string)
    (name description price category stock : value)
    (products : list Product) : response * list Product :=
  match findIndex (fun p => String.eqb (id p) i) products with
  | None => (product_not_found i, products)
  | Some productIndex =>
      let products1 :=
        if truthy name then alter (set_name name) productIndex products
        else products in
      let products2 :=
        if truthy description
        then alter (set_description description) productIndex products1
        else products1 in
      match (if truthy price
             then (fun x => alter (set_price x) productIndex products2)
                    <$> parseFloat price
             else Some products2)
      with
      | None => (internal_error, products2)
      | Some products3 =>
          let products4 :=
            if truthy category
            then alter (set_category category) productIndex products3
            else products3 in
          match (if negb (is_undefined stock)
                 then (fun n => alter (set_stock n) productIndex products4)
                        <$> parseInt stock
                 else Some products4)
          with
          | None => (internal_error, products4)
          | Some products5 =>
              let products6 :=
                alter (set_updatedAt (now env)) productIndex products5 in
              (json (VObj [ ("data", at_json productIndex products6);
                            ("message",
                             VStr "Product updated successfully") ]),
               products6)
          end
      end
  end.

(** [app.delete('/products/:id')] *)
Definition delete_product (i : string) (products : list Product)
  : response * list Product :=
  match findIndex (fun p => String.eqb (id p) i) products with
  | None => (product_not_found i, products)
  | Some productIndex =>
      let deletedProduct := at_json productIndex products in
      (json (VObj [ ("data", deletedProduct);
                    ("message", VStr "Product deleted successfully") ]),
       splice1 productIndex products)
  end.

(** [app.get('/products/search/:query')] *)
Definition search_products (query : string) (products : list Product)
  : response :=
  let hit (v : value) : option bool :=
    s ← toLowerCase_of v; Some (includes s (toLowerCase query)) in
  caught (
    searchResults ←
      filter_raising
        (fun product =>
           or_else (or_else (hit (name product))
                            (hit (description product)))
                   (hit (category product)))
        products;
    Some (json (VObj [ ("data", VArr (map product_json searchResults));
                       ("query", VStr query);
                       ("count", VNum (of_nat (length searchResults))) ]))).

(** [app.get('/categories')] *)
Definition get_categories (products : list Product) : response :=
  let categories := distinct (map category products) in
  json (VObj [ ("data", VArr categories);
               ("count", VNum (of_nat (length categories))) ]).

(** The [switch (operation)] of the stock handler: the stock that the
    product is left with, [q] being [parseInt(quantity)], which each of
    its cases evaluates. *)
Definition update_stock (operation : value) (q stock : number) : number :=
  if strict_eq operation (VStr "add") then
    add stock q
  else if strict_eq operation (VStr "subtract") then
    Math_max zero (sub stock q)
  else
    q.

(** [app.patch('/products/:id/stock')] *)
Definition patch_stock (env : Env) (i : string)
    (quantity operation0 : value) (products : list Product)
  : response * list Product :=
  let operation := default_to (VStr "set") operation0 in
  match findIndex (fun p => String.eqb (id p) i) products with
  | None => (product_not_found i, products)
  | Some productIndex =>
      if is_undefined quantity then
        (status_json 400
           (error_body "Validation error" "Quantity is required"),
         products)
      else
        match parseInt quantity with
        | None => (internal_error, products)
        | Some q =>
            let products1 :=
              alter (fun product =>
                       set_stock (update_stock operation q (stock product))
                         product)
                    productIndex products in
            let products2 :=
              alter (set_updatedAt (now env)) productIndex products1 in
            (json (VObj [ ("data", at_json productIndex products2);
                          ("message", VStr "Stock updated successfully") ]),
             products2)
        end
  end.

(** The application: the handler of the route runs on the current
    [products] and leaves the next ones. *)
Definition handle (env : Env) (r : request) (products : list Product)
  : response * list Product :=
  match r with
  | Health => (get_health env, products)
  | ListProducts page limit category minPrice maxPrice =>
      (get_products page limit category minPrice maxPrice products,
       products)
  | GetProduct i => (get_product i products, products)
  | CreateProduct name description price category stock =>
      post_products env name description price category stock products
  | UpdateProduct i name description price category stock =>
      put_product env i name description price category stock products
  | DeleteProduct i => delete_product i products
  | SearchProducts query => (search_products query products, products)
  | Categories => (get_categories products, products)
  | UpdateStock i quantity operation =>
      patch_stock env i quantity operation products
  | Unrouted _ => (not_found, products)
  end.

End ProductService.

(* ================================================================== *)
(** * The gateway core *)
(* ================================================================== *)

(** The gateway itself (the gateway/ directory of the repository) is not
    among the sources at hand; its four components are modelled from
    sections 3 and 4 of the specification.  Instants and durations are
    whole seconds; a payload is kept as the JSON value it encodes. *)

Module CacheStore.
Import Js.

(** Modelled from the spec: the CacheEntry of the data model (gateway
    code not at hand). *)
Record CacheEntry : Type := {
  key : string;
  body : value;
  statusCode : Z;
  headers : list (string * string);
  storedAt : Z;
  ttlSeconds : Z
}.

Abbreviation store := (gmap string CacheEntry).

(** Modelled from the spec: [storedAt + ttlSeconds] is the absolute
    expiry instant of an entry (gateway code not at hand). *)
Definition expired (now : Z) (e : CacheEntry) : bool :=
  storedAt e + ttlSeconds e <=? now.

(** Modelled from the spec: [get(key)] of the Cache Store; an entry past
    its expiry is absent, whether or not it is still held (gateway code
    not at hand). *)
Definition get (now : Z) (k : string) (s : store) : option CacheEntry :=
  match s !! k with
  | Some e => if expired now e then None else Some e
  | None => None
  end.

(** Modelled from the spec: [set(key, entry)] overwrites (gateway code
    not at hand). *)
Definition set (k : string) (e : CacheEntry) (s : store) : store :=
  <[k := e]> s.

(** Modelled from the spec: [delete(key)] (gateway code not at hand). *)
Definition delete (k : string) (s : store) : store := base.delete k s.

(** Modelled from the spec: [deleteAll()] (gateway code not at hand). *)
Definition deleteAll (s : store) : store := ∅.

(** Modelled from the spec: [deleteByPrefix(prefix)] (gateway code not
    at hand). *)
Definition deleteByPrefix (p : string) (s : store) : store :=
  filter (λ kv, String.prefix p kv.1 = false) s.

End CacheStore.

Module KeyBuilder.
Import Http.

(** Modelled from the spec: a query parameter, its name and its value
    (gateway code not at hand). *)
Definition param : Type := string * string.

(** Modelled from the spec: the order in which the query parameters are
    sorted, by name; two parameters of one name go by value, so that the
    result does not depend on the order they came in (gateway code not at
    hand). *)
Definition param_leb (a b : param) : bool :=
  if String.eqb a.1 b.1 then String.leb a.2 b.2 else String.leb a.1 b.1.

Definition param_le (a b : param) : Prop := param_leb a b.

#[global] Instance param_le_dec : RelDecision param_le.
Proof. intros a b. unfold param_le. apply _. Defined.

(** Modelled from the spec: the query parameters are sorted by name
    before concatenation (gateway code not at hand). *)
Definition sortQuery (query : list param) : list param :=
  merge_sort param_le query.

(** Modelled from the spec: trailing slashes are stripped, the case of
    the path is kept (gateway code not at hand). *)
Fixpoint normalizePath (p : string) : string :=
  match p with
  | EmptyString => EmptyString
  | String c r =>
      match normalizePath r with
      | EmptyString => if Ascii.eqb c "/" then EmptyString
                       else String c EmptyString
      | r' => String c r'
      end
  end.

(** Modelled from the spec: the value of a header of a request, if it has
    it (gateway code not at hand). *)
Fixpoint header (name : string) (headers : list (string * string))
  : option string :=
  match headers with
  | [] => None
  | (n, v) :: hs => if String.eqb n name then Some v else header name hs
  end.

(** Modelled from the spec: the whitelisted subset of the headers, such
    as Accept-Language, that a key takes in (gateway code not at
    hand). *)
Definition selectHeaders (whitelist : list string)
    (headers : list (string * string)) : list (option string) :=
  map (λ n, header n headers) whitelist.

Section Builder.
(** The concatenation that turns the parts of a key into a string; the
    specification leaves its format open. *)
Variable concat :
  method → string → list param → list (option string) → string.
(** The names of the headers that take part in a key. *)
Variable whitelist : list string.

(** Modelled from the spec: [buildKey(method, path, query, headers)],
    a function of the method, the normalized path, the sorted query
    parameters and the whitelisted headers (gateway code not at
    hand). *)
Definition buildKey (m : method) (path : string) (query : list param)
    (headers : list (string * string)) : string :=
  concat m (normalizePath path) (sortQuery query)
    (selectHeaders whitelist headers).
End Builder.

(** A key format that keeps every part apart: a tag for the method,
    then the path, the parameters and the headers, each string written
    with a mark before every character and a mark at its end. *)
Module Tagged.

Definition method_tag (m : method) : ascii :=
  match m with
  | GET => "G" | HEAD => "H" | POST => "P" | PUT => "U"
  | PATCH => "A" | DELETE => "D" | OPTIONS => "O"
  end%char.

Fixpoint str (s rest : string) : string :=
  match s with
  | EmptyString => String "." rest
  | String c s' => String "+" (String c (str s' rest))
  end.

Fixpoint params (q : list param) (rest : string) : string :=
  match q with
  | [] => String "." rest
  | (k, v) :: q' => String "+" (str k (str v (params q' rest)))
  end.

Definition opt (o : option string) (rest : string) : string :=
  match o with
  | None => String "0" rest
  | Some s => String "1" (str s rest)
  end.

Fixpoint opts (h : list (option string)) (rest : string) : string :=
  match h with
  | [] => String "." rest
  | o :: h' => String "+" (opt o (opts h' rest))
  end.

Definition concat (m : method) (p : string) (q : list param)
    (h : list (option string)) : string :=
  String (method_tag m) (str p (params q (opts h EmptyString))).

End Tagged.

End KeyBuilder.

Module RouteTable.

(** Modelled from the spec: the Route of the data model (gateway code
    not at hand). *)
Record Route : Type := {
  pathPrefix : string;
  targetBaseURL : string;
  cacheable : bool;
  ttlSeconds : Z
}.

(** Modelled from the spec: [match(path)], the route with the longest
    [pathPrefix] that is a prefix of the path; of two as long the one
    that comes first in the table (gateway code not at hand). *)
Fixpoint match_route (routes : list Route) (path : string) : option Route :=
  match routes with
  | [] => None
  | r :: rs =>
      let best := match_route rs path in
      if String.prefix (pathPrefix r) path then
        match best with
        | Some b =>
            if (String.length (pathPrefix r) <? String.length (pathPrefix b))%nat
            then Some b else Some r
        | None => Some r
        end
      else best
  end.

End RouteTable.

Module Router.
Import Js Http.
Import CacheStore KeyBuilder RouteTable.

(** Modelled from the spec: an inbound request (gateway code not at
    hand). *)
Record Request : Type := {
  method_ : method;
  path : string;
  query : list param;
  req_headers : list (string * string);
  req_body : option value
}.

(** Modelled from the spec: a response, of a backend or of the gateway
    (gateway code not at hand). *)
Record Response : Type := {
  status : Z;
  resp_headers : list (string * string);
  resp_body : option value
}.

(** Modelled from the spec: a call to a backend, the service addressed
    and the rewritten request (gateway code not at hand). *)
Record Outbound : Type := { target : string; outbound_request : Request }.

(** Modelled from the spec: what a call to a backend comes to, a
    response, unreachability or a timeout (gateway code not at hand). *)
Inductive Outcome : Type :=
| Replied (r : Response)
| Unreachable
| TimedOut.

(** Modelled from the spec: the idempotent-read methods, GET and HEAD
    (gateway code not at hand). *)
Definition is_read (m : method) : bool :=
  match m with GET | HEAD => true | _ => false end.

(** Modelled from the spec: a successful status, 2xx (gateway code not at
    hand). *)
Definition is_2xx (s : Z) : bool := (200 <=? s) && (s <? 300).

(** Modelled from the spec: the structured JSON error body
    [{error, message}] of the gateway (gateway code not at hand). *)
Definition error_response (code : Z) (e m : string) : Response :=
  {| status := code;
     resp_headers := [("Content-Type", "application/json")];
     resp_body := Some (error_body e m) |}.

(** Modelled from the spec: the gateway-level 404 of a path that no route
    matches (gateway code not at hand). *)
Definition route_not_found : Response :=
  error_response 404 "RouteNotFound" "No route matches the request path".

(** Modelled from the spec: unreachability gives a 502, a timeout a 504
    (gateway code not at hand). *)
Definition gateway_error (o : Outcome) : Response :=
  match o with
  | TimedOut =>
      error_response 504 "BackendUnreachable" "The backend timed out"
  | _ =>
      error_response 502 "BackendUnreachable" "The backend is unreachable"
  end.

(** Modelled from the spec: the outbound request keeps the method, the
    query, the headers and the body; the matched prefix is stripped from
    the path and the remainder kept (gateway code not at hand). *)
Definition outbound (route : Route) (req : Request) : Outbound :=
  {| target := targetBaseURL route;
     outbound_request :=
       {| method_ := method_ req;
          path := String.substring (String.length (pathPrefix route))
                    (String.length (path req)) (path req);
          query := query req;
          req_headers := req_headers req;
          req_body := req_body req |} |}.

(** Modelled from the spec: a hit is the stored response with a marker
    of its cache origin added (gateway code not at hand). *)
Definition from_cache (e : CacheEntry) : Response :=
  {| status := statusCode e;
     resp_headers := ("X-Cache", "HIT") :: headers e;
     resp_body := Some (body e) |}.

Section Gateway.
(** The key format: the concatenation of the parts of a key, and the
    test that a key was built from a path under a prefix. *)
Variable concat :
  method → string → list param → list (option string) → string.
Variable built_under : string → string → bool.
Variable whitelist : list string.
(** The Route Table, fixed at startup. *)
Variable routes : list Route.
(** The backends: whatever state they have, and what a call does. *)
Variable World : Type.
Variable call : Outbound → World → Outcome * World.

(** Modelled from the spec: what a request is handled in, the Cache
    Store, the backends, and the calls made to them so far (gateway code
    not at hand). *)
Record State : Type := {
  cache : store;
  world : World;
  calls : list Outbound
}.

Definition with_cache (c : store) (st : State) : State :=
  {| cache := c; world := world st; calls := calls st |}.

(** Modelled from the spec: one call to a backend, recorded (gateway code
    not at hand). *)
Definition attempt (out : Outbound) (st : State) : Outcome * State :=
  let '(o, w) := call out (world st) in
  (o, {| cache := cache st; world := w; calls := calls st ++ [out] |}).

(** Modelled from the spec: a call that fails is retried once, then
    the failure stands (gateway code not at hand). *)
Definition forward (out : Outbound) (st : State) : Outcome * State :=
  let '(o, st1) := attempt out st in
  match o with
  | Replied _ => (o, st1)
  | _ => attempt out st1
  end.

(** Modelled from the spec: [invalidateAll()] of the Invalidation
    Controller (gateway code not at hand). *)
Definition invalidateAll (s : store) : store := deleteAll s.

(** Modelled from the spec: [invalidateByResource(prefix)] removes
    every entry whose key was built from a path under the prefix
    (gateway code not at hand). *)
Definition invalidateByResource (prefix : string) (s : store) : store :=
  filter (λ kv, built_under prefix kv.1 = false) s.

(** Modelled from the spec: the entry stored on a miss (gateway code
    not at hand). *)
Definition entry_of (k : string) (now : Z) (route : Route)
    (r : Response) (b : value) : CacheEntry :=
  {| key := k; body := b; statusCode := status r;
     headers := resp_headers r; storedAt := now;
     CacheStore.ttlSeconds := RouteTable.ttlSeconds route |}.

(** Modelled from the spec: [handle(request)] of the Request Router,
    steps 1 to 4 of its algorithm (gateway code not at hand). *)
Definition handle (now : Z) (req : Request) (st : State)
  : Response * State :=
  match match_route routes (path req) with
  | None => (route_not_found, st)
  | Some route =>
      let out := outbound route req in
      if cacheable route && is_read (method_ req) then
        let k := buildKey concat whitelist (method_ req) (path req)
                   (query req) (req_headers req) in
        match get now k (cache st) with
        | Some e => (from_cache e, st)
        | None =>
            let '(o, st1) := forward out st in
            match o with
            | Replied r =>
                match resp_body r with
                | Some b =>
                    if is_2xx (status r)
                    then (r, with_cache
                               (set k (entry_of k now route r b) (cache st1))
                               st1)
                    else (r, st1)
                | None => (r, st1)
                end
            | _ => (gateway_error o, st1)
            end
        end
      else
        let '(o, st1) := forward out st in
        match o with
        | Replied r =>
            if is_mutating (method_ req) && is_2xx (status r)
            then (r, with_cache
                       (invalidateByResource (pathPrefix route) (cache st1))
                       st1)
            else (r, st1)
        | _ => (gateway_error o, st1)
        end
  end.

(** Modelled from the spec: [DELETE /cache] clears the store and
    always succeeds (gateway code not at hand). *)
Definition clear_cache (st : State) : Response * State :=
  ({| status := 200;
      resp_headers := [("Content-Type", "application/json")];
      resp_body := Some (VObj [("message", VStr "cache cleared")]) |},
   with_cache (invalidateAll (cache st)) st).

End Gateway.

Arguments cache {World} _.
Arguments world {World} _.
Arguments calls {World} _.

End Router.

(* ================================================================== *)
(** * Sample data *)
(* ================================================================== *)

Module Samples.
Import Js Http CacheStore KeyBuilder RouteTable Router.

Definition t0 : string := "2024-01-01T00:00:00.000Z".

Definition env0 : Env :=
  {| now := "2024-01-02T00:00:00.000Z";
     uuid := "3f2b8c1e-5d4a-4c6b-9e7f-0a1b2c3d4e5f";
     uptime := of_Z 86400 |}.

Definition users0 : list UserService.User := UserService.users t0.
Definition products0 : list ProductService.Product :=
  ProductService.products t0.

(** The Route Table of the end-to-end scenario, with a second route for
    the products. *)
Definition routes0 : list Route :=
  [ {| pathPrefix := "/api/users";
       targetBaseURL := "http://user-service:3001";
       cacheable := true; RouteTable.ttlSeconds := 30 |};
    {| pathPrefix := "/api/products";
       targetBaseURL := "http://product-service:3002";
       cacheable := true; RouteTable.ttlSeconds := 60 |} ].

Definition whitelist0 : list string := ["Accept-Language"].

(** In the tagged format the path follows the method tag. *)
Definition built_under0 (prefix k : string) : bool :=
  match k with
  | String _ (String _ r) => String.prefix prefix (String "/" r)
  | _ => false
  end.

Definition get_users_request : Request :=
  {| method_ := GET; path := "/api/users/users"; query := [];
     req_headers := []; req_body := None |}.

Definition unknown_request : Request :=
  {| method_ := GET; path := "/static/logo.png"; query := [];
     req_headers := []; req_body := None |}.

Definition query_value (k : string) (q : list param) : value :=
  match header k q with
  | Some v => VStr v
  | None => VUndefined
  end.

(** A stand-in for the user service behind the gateway: it serves
    [GET /users] with the listing handler and answers any other request
    as an unmatched one; another target is unreachable. *)
Definition users_backend (out : Outbound) (users : list UserService.User)
  : Outcome * list UserService.User :=
  let r := outbound_request out in
  if String.eqb (target out) "http://user-service:3001" then
    let routed :=
      if method_eqb (method_ r) GET && String.eqb (path r) "/users"
      then UserService.ListUsers (query_value "page" (query r))
             (query_value "limit" (query r)) (query_value "role" (query r))
      else UserService.Unrouted (method_ r) in
    let '(res, users') := UserService.handle env0 routed users in
    (Replied {| status := Http.statusCode res;
                resp_headers := [("Content-Type", "application/json")];
                resp_body := Some (Http.body res) |},
     users')
  else (Unreachable, users).

(** A backend that is down. *)
Definition down_backend (out : Outbound) (w : unit) : Outcome * unit :=
  (Unreachable, w).

Definition key0 : string :=
  buildKey Tagged.concat whitelist0 GET "/api/users/users" [] [].

(** An entry stored at the instant 100 for 30 seconds. *)
Definition entry0 : CacheEntry :=
  {| key := key0; body := VObj [("data", VArr [])]; statusCode := 200;
     headers := [("Content-Type", "application/json")];
     storedAt := 100; CacheStore.ttlSeconds := 30 |}.

Definition state0 {W} (w : W) : State W :=
  {| cache := ∅; world := w; calls := [] |}.

Definition state1 {W} (w : W) : State W :=
  {| cache := {[ key0 := entry0 ]}; world := w; calls := [] |}.

End Samples.

(* ================================================================== *)
(** * Conditions on the collections *)
(* ================================================================== *)

Module Conditions.
Import Js Http.

(** No two users have the same email, in the sense of [===]. *)
Definition emails_distinct (users : list UserService.User) : Prop :=
  ∀ i j ui uj, users !! i = Some ui → users !! j = Some uj → i ≠ j →
    strict_eq (UserService.email ui) (UserService.email uj) = false.

(** The user that [PUT /users/:id] leaves in the place of [u]: a field
    is replaced when the request has a truthy value for it. *)
Definition updated_user (env : Env) (name email role : value)
    (u : UserService.User) : UserService.User :=
  {| UserService.id := UserService.id u;
     UserService.name := if truthy name then name else UserService.name u;
     UserService.email := if truthy email then email else UserService.email u;
     UserService.role := if truthy role then role else UserService.role u;
     UserService.createdAt := UserService.createdAt u;
     UserService.updatedAt := Some (now env) |}.

(** A value is a string. *)
Definition is_string (v : value) : bool :=
  match v with VStr _ => true | _ => false end.


End Conditions.

Module MoreSamples.
Import Js Http Samples.

Definition joao : UserService.User :=
  {| UserService.id := "1"; UserService.name := VStr "João Silva";
     UserService.email := VStr "joao@example.com";
     UserService.role := VStr "admin"; UserService.createdAt := t0;
     UserService.updatedAt := None |}.

Definition maria : UserService.User :=
  {| UserService.id := "2"; UserService.name := VStr "Maria Santos";
     UserService.email := VStr "maria@example.com";
     UserService.role := VStr "user"; UserService.createdAt := t0;
     UserService.updatedAt := None |}.

Definition notebook : ProductService.Product :=
  {| ProductService.id := "2"; ProductService.name := VStr "Notebook Dell";
     ProductService.description :=
       VStr "Notebook Dell Inspiron 15 com Intel i5";
     ProductService.price := Fin (249999 # 100);
     ProductService.category := VStr "electronics";
     ProductService.stock := of_Z 25; ProductService.createdAt := t0;
     ProductService.updatedAt := None |}.


(** An object that has lost its [toString]. *)
Definition unprintable : value := VObj [("toString", VNull)].

End MoreSamples.

(* ================================================================== *)
(** * Properties of the runtime fragment *)
(* ================================================================== *)

Section JsFacts.
Import Js.



Lemma take_min_length {A} (k : nat) (l : list A) :
  take (k `min` length l) l = take k l.
Proof.
  destruct (Nat.le_gt_cases k (length l)) as [H|H].
  - now rewrite Nat.min_l.
  - rewrite Nat.min_r by lia. rewrite firstn_all.
    symmetry. apply take_ge. lia.
Qed.

(** A slice from 0 is a prefix. *)
Lemma slice_from_zero {A} (l : list A) (k : Z) :
  0 ≤ k → slice l (of_Z 0) (of_Z k) = take (Z.to_nat k) l.
Proof.
  intros Hk. unfold slice, relIndex, of_Z, Qtrunc. cbn [inject_Z Qnum Qden].
  rewrite Z.quot_1_r. change (Z.quot 0 1) with 0.
  change (0 <? 0) with false. cbv iota.
  destruct (Z.ltb_spec k 0) as [Hlt|Hge]; [exfalso; lia|].
  rewrite (Z.min_l 0) by lia. rewrite Z.sub_0_r. cbn [Z.to_nat drop].
  rewrite Z2Nat.inj_min, Nat2Z.id. apply take_min_length.
Qed.

Example parseInt_examples :
  parseInt (VStr "  42px") = Some (of_Z 42)
  ∧ parseInt (VStr "0x1F") = Some (of_Z 31)
  ∧ parseInt (VStr "-7.9") = Some (of_Z (-7))
  ∧ parseInt (VStr "abc") = Some NaN
  ∧ parseInt (VNum (Fin (5 # 2))) = Some (of_Z 2)
  ∧ parseInt (VNum (Fin (-5 # 2))) = Some (of_Z (-2))
  ∧ parseInt (VNum (Fin (1 # 10000000))) = Some (of_Z 1)
  ∧ parseInt (VNum (of_Z (3 * 10 ^ 21))) = Some (of_Z 3)
  ∧ parseInt VNull = Some NaN
  ∧ parseInt (VBool true) = Some NaN
  ∧ parseInt (VArr [VStr "12"; VStr "7"]) = Some (of_Z 12)
  ∧ parseInt (VObj [("n", VNum one)]) = Some NaN
  ∧ parseInt (VObj [("toString", VNum one)]) = None
  ∧ parseInt (VArr [VStr "12"; VObj [("toString", VNull)]]) = None.
Proof. vm_compute. repeat split. Qed.

Example ToNumber_examples :
  ToNumber (VStr "") = Some zero
  ∧ ToNumber (VStr " 12 ") = Some (of_Z 12)
  ∧ ToNumber (VStr "12px") = Some NaN
  ∧ ToNumber (VStr "-2.5") = Some (Fin (-5 # 2))
  ∧ ToNumber (VStr "1e3") = Some (of_Z 1000)
  ∧ ToNumber (VStr "0b101") = Some (of_Z 5)
  ∧ ToNumber VNull = Some zero
  ∧ ToNumber VUndefined = Some NaN
  ∧ ToNumber (VBool true) = Some one
  ∧ ToNumber (VArr []) = Some zero
  ∧ ToNumber (VArr [VStr "7"]) = Some (of_Z 7)
  ∧ ToNumber (VArr [VNum one; VNum one]) = Some NaN
  ∧ ToNumber (VObj []) = Some NaN
  ∧ ToNumber (VObj [("toString", VStr "7")]) = None.
Proof. vm_compute. repeat split. Qed.

Example parseFloat_examples :
  parseFloat (VStr "3.14abc") = Some (Fin (157 # 50))
  ∧ parseFloat (VStr ".5e1") = Some (of_Z 5)
  ∧ parseFloat (VStr "1e") = Some (of_Z 1)
  ∧ parseFloat (VStr "-Infinity") = Some NInf
  ∧ parseFloat (VStr "price") = Some NaN
  ∧ parseFloat (VNum (Fin (5 # 2))) = Some (Fin (5 # 2)).
Proof. vm_compute. repeat split. Qed.

Example slice_examples :
  slice [1; 2; 3; 4; 5] (of_Z 1) (of_Z 3) = [2; 3]
  ∧ slice [1; 2; 3; 4; 5] (of_Z (-2)) PInf = [4; 5]
  ∧ slice [1; 2; 3; 4; 5] (of_Z 10) (of_Z 20) = []
  ∧ slice [1; 2; 3; 4; 5] NaN (Fin (5 # 2)) = [1; 2].
Proof. vm_compute. repeat split. Qed.

Lemma findIndex_Some {A} (p : A → bool) (l : list A) (i : nat) :
  findIndex p l = Some i → ∃ x, l !! i = Some x ∧ p x = true.
Proof.
  revert i. induction l as [|a l IH]; intros i; cbn; [discriminate|].
  destruct (p a) eqn:Hp.
  - intros [= <-]. eauto.
  - destruct (findIndex p l) as [j|]; cbn; [|discriminate].
    intros [= <-]. cbn. now apply IH.
Qed.

Lemma findIndex_None {A} (p : A → bool) (l : list A) :
  findIndex p l = None → ∀ x, x ∈ l → p x = false.
Proof.
  induction l as [|a l IH]; cbn; intros H x Hx.
  - inversion Hx.
  - destruct (p a) eqn:Hp; [discriminate|].
    destruct (findIndex p l); [discriminate|].
    apply elem_of_cons in Hx as [->|Hx]; auto.
Qed.

End JsFacts.

(* ================================================================== *)
(** * Properties of the two services *)
(* ================================================================== *)

Section Services.
Import Js Http.
Local Open Scope list_scope.

(** ** Health *)

(** C5. [GET /health] of the user service and of the product service
    answers 200 with a JSON object that has a [status] field and a
    [timestamp] field (the current instant). *)
Theorem health_status_and_timestamp (env : Env)
    (users : list UserService.User) (products : list ProductService.Product) :
  let ru := UserService.handle env UserService.Health users in
  let rp := ProductService.handle env ProductService.Health products in
  (statusCode ru.1 = 200
   ∧ has_field "status" (body ru.1) = true
   ∧ has_field "timestamp" (body ru.1) = true
   ∧ get "status" (body ru.1) = VStr "healthy"
   ∧ get "timestamp" (body ru.1) = VStr (now env))
  ∧ (statusCode rp.1 = 200
     ∧ has_field "status" (body rp.1) = true
     ∧ has_field "timestamp" (body rp.1) = true
     ∧ get "status" (body rp.1) = VStr "healthy"
     ∧ get "timestamp" (body rp.1) = VStr (now env)).
Proof. cbn. repeat split; reflexivity. Qed.

(** ** Listing users *)

(** C6. [GET /users] without a role filter and with the default
    pagination answers 200 with a body whose [data] field is the array
    of the first ten stored users, in their order; this is the response
    of shape [{data: [...]}] that the gateway receives for
    [GET /api/users/users]. *)
Theorem get_users_default_first_page (env : Env)
    (users : list UserService.User) :
  let r :=
    (UserService.handle env
       (UserService.ListUsers VUndefined VUndefined VUndefined) users).1 in
  statusCode r = 200
  ∧ get "data" (body r) = VArr (map UserService.user_json (take 10 users))
  ∧ has_field "data" (body r) = true.
Proof.
  cbn [UserService.handle fst]. unfold UserService.get_users.
  cbn [default_to is_undefined truthy].
  change (ToNumber (VNum (of_Z 1))) with (Some (of_Z 1)).
  change (ToNumber (VNum (of_Z 10))) with (Some (of_Z 10)).
  change (parseInt (VNum (of_Z 1))) with (Some (of_Z 1)).
  change (parseInt (VNum (of_Z 10))) with (Some (of_Z 10)).
  cbn [mbind option_bind caught].
  change (mul (sub (of_Z 1) one) (of_Z 10)) with (of_Z 0).
  change (mul (of_Z 1) (of_Z 10)) with (of_Z 10).
  rewrite slice_from_zero by lia.
  repeat split.
Qed.

(** The second page of two users is the third user. *)
Example get_users_second_page :
  get "data"
    (body (UserService.get_users (VStr "2") (VStr "2") VUndefined
             Samples.users0))
  = VArr (map UserService.user_json (drop 2 Samples.users0)).
Proof. reflexivity. Qed.

(** ** Reads leave the collections alone *)

(** C7. A GET handler of either service leaves the collection ([users],
    [products]) as it found it; a request after which the collection
    differs went to a POST, PUT, PATCH or DELETE handler. *)
Theorem read_handlers_leave_collections (env : Env)
    (ru : UserService.request) (users : list UserService.User)
    (rp : ProductService.request) (products : list ProductService.Product) :
  (UserService.method_of ru = GET →
   (UserService.handle env ru users).2 = users)
  ∧ (ProductService.method_of rp = GET →
     (ProductService.handle env rp products).2 = products)
  ∧ ((UserService.handle env ru users).2 ≠ users →
     is_mutating (UserService.method_of ru) = true)
  ∧ ((ProductService.handle env rp products).2 ≠ products →
     is_mutating (ProductService.method_of rp) = true).
Proof.
  repeat split.
  - destruct ru; cbn; intros H; try discriminate H; reflexivity.
  - destruct rp; cbn; intros H; try discriminate H; reflexivity.
  - destruct ru; cbn; intros H; try reflexivity; now destruct H.
  - destruct rp; cbn; intros H; try reflexivity; now destruct H.
Qed.

(** The writes do write: a new user comes last, a deleted product is
    gone. *)
Example writes_change_collections :
  (UserService.handle Samples.env0
     (UserService.CreateUser (VStr "Ana Lima") (VStr "ana@example.com")
        VUndefined) Samples.users0).2
  = Samples.users0
    ++ [ {| UserService.id := uuid Samples.env0;
            UserService.name := VStr "Ana Lima";
            UserService.email := VStr "ana@example.com";
            UserService.role := VStr "user";
            UserService.createdAt := now Samples.env0;
            UserService.updatedAt := None |} ]
  ∧ (ProductService.handle Samples.env0 (ProductService.DeleteProduct "1")
       Samples.products0).2
    = drop 1 Samples.products0.
Proof. split; reflexivity. Qed.

(** A search that meets a name that is not a string ends in a 500 and
    changes nothing. *)
Example search_raises :
  let users :=
    [ {| UserService.id := "9"; UserService.name := VNum one;
         UserService.email := VStr "n@example.com";
         UserService.role := VStr "user";
         UserService.createdAt := Samples.t0;
         UserService.updatedAt := None |} ] in
  UserService.handle Samples.env0 (UserService.SearchUsers "a") users
  = (internal_error, users).
Proof. reflexivity. Qed.

(** An update that raises at the price has already written the name. *)
Example put_product_raises_midway :
  let r := ProductService.put_product Samples.env0 "1" (VStr "Galaxy S")
             VUndefined (VObj [("toString", VNull)]) VUndefined VUndefined
             Samples.products0 in
  r.1 = internal_error
  ∧ ProductService.name <$> r.2 !! 0%nat = Some (VStr "Galaxy S")
  ∧ ProductService.updatedAt <$> r.2 !! 0%nat = Some None.
Proof. repeat split. Qed.

(** ** Stock *)

(** The three operations on the stock of product 1, which is 50. *)
Example stock_operations :
  let stock_after quantity operation :=
    ProductService.stock
      <$> (ProductService.patch_stock Samples.env0 "1" quantity operation
             Samples.products0).2 !! 0%nat in
  stock_after (VNum (of_Z 5)) (VStr "add") = Some (of_Z 55)
  ∧ stock_after (VStr "20") (VStr "subtract") = Some (of_Z 30)
  ∧ stock_after (VNum (of_Z 70)) (VStr "subtract") = Some zero
  ∧ stock_after (VNum (of_Z 7)) VUndefined = Some (of_Z 7)
  ∧ stock_after (VNum (of_Z 7)) (VStr "replace") = Some (of_Z 7)
  ∧ stock_after (VStr "many") (VStr "subtract") = Some NaN
  ∧ stock_after VNull (VStr "subtract") = Some NaN
  ∧ stock_after (VObj [("toString", VNull)]) (VStr "subtract")
    = Some (of_Z 50).
Proof. vm_compute. repeat split. Qed.


(** ** Creating a user *)

(** C9, as the code has it. When the email of a [POST /users] request is
    [===] to the email of a stored user, the collection is left as it
    is; the answer is 409 when the name and the email are both given and
    not empty, and 400 when one of them is missing, for the validation
    comes first. *)
Theorem post_users_conflict (env : Env) (name email role : value)
    (users : list UserService.User) (u : UserService.User) :
  u ∈ users →
  strict_eq (UserService.email u) email = true →
  let r := UserService.post_users env name email role users in
  r.2 = users
  ∧ (truthy name = true → truthy email = true → statusCode r.1 = 409)
  ∧ (truthy name = false ∨ truthy email = false → statusCode r.1 = 400).
Proof.
  intros Hu Heq. unfold UserService.post_users.
  destruct (truthy name), (truthy email); cbn [negb orb fst snd];
    try (split; [reflexivity|split; [intros; congruence|reflexivity]]).
  destruct (List.find _ users) as [existingUser|] eqn:Hfind.
  - cbn. split; [reflexivity|]. split; [reflexivity|].
    intros [H|H]; discriminate H.
  - exfalso. apply list_elem_of_In in Hu.
    pose proof (find_none _ _ Hfind u Hu) as Hnone. cbn in Hnone. congruence.
Qed.

(** ** Creating a product *)

(** C10. A [POST /products] request in which the name, the description,
    the price or the category is missing (absent or otherwise falsy), or
    whose price is [<= 0], is answered with 400 and an [{error, message}]
    body, and the products are left as they are.  The price 0 is turned
    down by the check of the required fields. *)
Theorem post_products_rejected (env : Env)
    (name description price category stock : value)
    (products : list ProductService.Product) :
  truthy name = false ∨ truthy description = false
  ∨ truthy price = false ∨ truthy category = false
  ∨ le_num price zero = Some true →
  let r := ProductService.post_products env name description price
             category stock products in
  statusCode r.1 = 400
  ∧ has_field "error" (body r.1) = true
  ∧ has_field "message" (body r.1) = true
  ∧ r.2 = products
  ∧ (∀ q, price = VNum (Fin q) → (q == 0)%Q →
     r.1 = status_json 400
             (error_body "Validation error"
                "Name, description, price, and category are required")).
Proof.
  intros H. unfold ProductService.post_products.
  destruct (negb (truthy name) || negb (truthy description)
            || negb (truthy price) || negb (truthy category)) eqn:Hreq.
  - cbn. repeat split.
  - apply orb_false_elim in Hreq as [Hreq Hc].
    apply orb_false_elim in Hreq as [Hreq Hp].
    apply orb_false_elim in Hreq as [Hn Hd].
    apply negb_false_iff in Hn, Hd, Hp, Hc.
    destruct H as [H|[H|[H|[H|H]]]]; try congruence.
    rewrite H. cbn. repeat split.
    intros q -> Hq0. apply Qeq_bool_iff in Hq0. cbn in Hp.
    rewrite Hq0 in Hp. discriminate Hp.
Qed.

End Services.

(* ================================================================== *)
(** * Inputs on which the code parts from two of the statements *)
(* ================================================================== *)

Section ServiceCounterexamples.
Import Js Http Samples.


(** C9, at a request that has the email of the stored user 1 and no
    name: the answer is 400, not 409. *)
Lemma post_users_conflict_counterexample :
  let users := users0 in
  let email := VStr "joao@example.com" in
  let r := UserService.post_users env0 VUndefined email VUndefined users in
  (∃ u, u ∈ users ∧ strict_eq (UserService.email u) email = true)
  ∧ statusCode r.1 = 400
  ∧ statusCode r.1 ≠ 409.
Proof.
  cbn zeta. split; [|split].
  - eexists. split; [apply list_elem_of_here|reflexivity].
  - reflexivity.
  - discriminate.
Qed.

End ServiceCounterexamples.

(* ================================================================== *)
(** * Properties of the gateway core *)
(* ================================================================== *)

Section KeyOrder.
Import KeyBuilder.

Lemma string_leb_refl (s : string) : String.leb s s = true.
Proof.
  pose proof (reflexivity (R:=String.le) s) as H.
  unfold String.le in H. now apply Is_true_true in H.
Qed.

Lemma string_leb_trans (a b c : string) :
  String.leb a b = true → String.leb b c = true → String.leb a c = true.
Proof.
  intros H1%Is_true_true H2%Is_true_true. apply Is_true_true.
  exact (transitivity (R:=String.le) H1 H2).
Qed.

#[global] Instance param_le_total : Total param_le.
Proof.
  intros [k1 v1] [k2 v2]. unfold param_le, param_leb. cbn [fst snd].
  rewrite (String.eqb_sym k2 k1).
  destruct (String.eqb k1 k2).
  - destruct (String.leb_total v1 v2) as [->| ->]; cbn; auto.
  - destruct (String.leb_total k1 k2) as [->| ->]; cbn; auto.
Qed.

#[global] Instance param_le_antisymm : AntiSymm (=) param_le.
Proof.
  intros [k1 v1] [k2 v2]. unfold param_le, param_leb. cbn [fst snd].
  rewrite (String.eqb_sym k2 k1).
  destruct (String.eqb_spec k1 k2) as [->|Hne].
  - intros H1%Is_true_true H2%Is_true_true.
    now rewrite (String.leb_antisym _ _ H1 H2).
  - intros H1%Is_true_true H2%Is_true_true.
    now destruct Hne; apply String.leb_antisym.
Qed.

#[global] Instance param_le_trans : Transitive param_le.
Proof.
  intros [k1 v1] [k2 v2] [k3 v3]. unfold param_le, param_leb.
  cbn [fst snd].
  destruct (String.eqb_spec k1 k2) as [->|H12].
  - destruct (String.eqb_spec k2 k3) as [->|H23]; [|tauto].
    intros H1%Is_true_true H2%Is_true_true. apply Is_true_true.
    eauto using string_leb_trans.
  - destruct (String.eqb_spec k2 k3) as [->|H23].
    + destruct (String.eqb_spec k1 k3); tauto.
    + intros H1%Is_true_true H2%Is_true_true.
      destruct (String.eqb_spec k1 k3) as [->|H13].
      * destruct H12. now apply String.leb_antisym.
      * apply Is_true_true. eauto using string_leb_trans.
Qed.




(** [/products] and [/products/] have one normal form. *)
Lemma normalizePath_trailing_slash (p : string) :
  normalizePath (p ++ "/") = normalizePath p.
Proof.
  induction p as [|c p IH]; [reflexivity|].
  change (String c p +:+ "/") with (String c (p +:+ "/")).
  cbn [normalizePath]. now rewrite IH.
Qed.

End KeyOrder.

Section TaggedKeys.
Import Http KeyBuilder KeyBuilder.Tagged.






End TaggedKeys.

Section Keys.
Import Http KeyBuilder.

Variable concat :
  method → string → list param → list (option string) → string.
Variable whitelist : list string.

(** The requirement of the key builder's contract: keys are
    collision-resistant, distinct parts give distinct keys. *)
Hypothesis concat_inj : ∀ m p q h m' p' q' h',
  concat m p q h = concat m' p' q' h' → m = m' ∧ p = p' ∧ q = q' ∧ h = h'.


End Keys.

Section Store.
Import CacheStore.

(** An entry whose expiry instant has come is absent. *)
Lemma get_expired (now : Z) (k : string) (s : store) (e : CacheEntry) :
  s !! k = Some e → storedAt e + ttlSeconds e ≤ now → get now k s = None.
Proof.
  intros Hk Hexp. unfold get, expired. rewrite Hk.
  destruct (Z.leb_spec (storedAt e + ttlSeconds e) now); [reflexivity|].
  exfalso; lia.
Qed.

(** Before its expiry instant an entry is returned as it was stored. *)
Lemma get_live (now : Z) (k : string) (s : store) (e : CacheEntry) :
  s !! k = Some e → now < storedAt e + ttlSeconds e → get now k s = Some e.
Proof.
  intros Hk Hlive. unfold get, expired. rewrite Hk.
  destruct (Z.leb_spec (storedAt e + ttlSeconds e) now); [|reflexivity].
  exfalso; lia.
Qed.

Lemma get_set (now : Z) (k : string) (s : store) (e : CacheEntry) :
  now < storedAt e + ttlSeconds e → get now k (set k e s) = Some e.
Proof. intros H. apply get_live; [apply lookup_insert_eq|done]. Qed.

Lemma get_deleteAll (now : Z) (k : string) (s : store) :
  get now k (deleteAll s) = None.
Proof. unfold get, deleteAll. now rewrite lookup_empty. Qed.

End Store.

Section Routes.
Import RouteTable.

(** No route is returned exactly when no prefix of the table is a
    prefix of the path. *)
Lemma match_route_None (routes : list Route) (path : string) :
  match_route routes path = None
  ↔ ∀ r, r ∈ routes → String.prefix (pathPrefix r) path = false.
Proof.
  induction routes as [|r rs IH]; cbn [match_route].
  - split; [intros _ r Hr; inversion Hr|reflexivity].
  - destruct (String.prefix (pathPrefix r) path) eqn:Hp.
    + split.
      * repeat case_match; discriminate.
      * intros H. specialize (H r (list_elem_of_here _ _)). congruence.
    + rewrite IH. split.
      * intros H r' [->|Hr']%elem_of_cons; auto.
      * intros H r' Hr'. apply H. now apply list_elem_of_further.
Qed.

(** The route returned is in the table and its prefix is a prefix of the
    path. *)
Lemma match_route_Some (routes : list Route) (path : string) (r : Route) :
  match_route routes path = Some r →
  r ∈ routes ∧ String.prefix (pathPrefix r) path = true.
Proof.
  revert r. induction routes as [|a rs IH]; cbn [match_route]; intros r;
    [discriminate|].
  destruct (String.prefix (pathPrefix a) path) eqn:Hp.
  - destruct (match_route rs path) as [b|].
    + case_match; intros [= <-].
      * destruct (IH b eq_refl). split; [now apply list_elem_of_further|done].
      * split; [apply list_elem_of_here|done].
    + intros [= <-]. split; [apply list_elem_of_here|done].
  - intros H. destruct (IH r H). split; [now apply list_elem_of_further|done].
Qed.

(** Longest prefix wins: no matching route has a longer prefix than the
    one returned. *)
Lemma match_route_longest (routes : list Route) (path : string) (r : Route) :
  match_route routes path = Some r →
  ∀ r', r' ∈ routes → String.prefix (pathPrefix r') path = true →
  (String.length (pathPrefix r') ≤ String.length (pathPrefix r))%nat.
Proof.
  revert r. induction routes as [|a rs IH]; cbn [match_route]; intros r;
    [discriminate|].
  destruct (String.prefix (pathPrefix a) path) eqn:Hp.
  - destruct (match_route rs path) as [b|] eqn:Hb.
    + destruct (Nat.ltb_spec (String.length (pathPrefix a))
                  (String.length (pathPrefix b))); intros [= <-].
      * intros r' [->|Hr']%elem_of_cons Hr; [lia|]. eapply IH; eauto.
      * intros r' [->|Hr']%elem_of_cons Hr; [lia|].
        etrans; [eapply IH; eauto|lia].
    + intros [= <-] r' [->|Hr']%elem_of_cons Hr; [lia|].
      rewrite (proj1 (match_route_None _ _) Hb r' Hr') in Hr. discriminate.
  - intros H r' [->|Hr']%elem_of_cons Hr; [congruence|]. eapply IH; eauto.
Qed.

End Routes.

Section Routing.
Import Js Http CacheStore KeyBuilder RouteTable Router.

Variable concat :
  method → string → list param → list (option string) → string.
Variable built_under : string → string → bool.
Variable whitelist : list string.
Variable routes : list Route.
Variable World : Type.
Variable call : Outbound → World → Outcome * World.

Local Open Scope list_scope.

Abbreviation handle := (Router.handle concat built_under whitelist routes World call).
Abbreviation forward := (Router.forward World call).
Abbreviation attempt := (Router.attempt World call).

Lemma attempt_state (out : Outbound) (st : State World) :
  cache (attempt out st).2 = cache st
  ∧ calls (attempt out st).2 = calls st ++ [out].
Proof. unfold Router.attempt. now destruct (call out (world st)). Qed.

(** Forwarding calls the backend once or twice and does not touch the
    store. *)
Lemma forward_state (out : Outbound) (st : State World) :
  cache (forward out st).2 = cache st
  ∧ (calls (forward out st).2 = calls st ++ [out]
     ∨ calls (forward out st).2 = calls st ++ [out; out]).
Proof.
  unfold Router.forward.
  destruct (attempt out st) as [o st1] eqn:H1.
  pose proof (attempt_state out st) as [Hc1 Hl1]. rewrite H1 in Hc1, Hl1.
  cbn [snd] in Hc1, Hl1.
  destruct o; [cbn [snd]; auto| |];
    (pose proof (attempt_state out st1) as [Hc2 Hl2];
     rewrite Hc2, Hl2, Hc1, Hl1, <- app_assoc; auto).
Qed.

(** Only a reply is ever final on the first attempt; what [forward]
    returns after a failure is what the second attempt gave. *)
Lemma forward_bounded (out : Outbound) (st : State World) :
  (length (calls (forward out st).2) ≤ length (calls st) + 2)%nat.
Proof.
  destruct (forward_state out st) as [_ [-> | ->]];
    rewrite length_app; cbn; lia.
Qed.

(** C4. When no prefix of the Route Table is a prefix of the path of a
    request, the router answers 404 with a JSON body that has an [error]
    and a [message] field; no backend is called and the Cache Store is
    not touched: the state is the one before. *)
Theorem no_route_404 (now : Z) (req : Request) (st : State World) :
  (∀ r, r ∈ routes → String.prefix (pathPrefix r) (path req) = false) →
  let res := handle now req st in
  status res.1 = 404
  ∧ (∃ b, resp_body res.1 = Some b
          ∧ has_field "error" b = true ∧ has_field "message" b = true)
  ∧ calls res.2 = calls st
  ∧ cache res.2 = cache st
  ∧ res.2 = st.
Proof.
  intros Hno. apply (proj2 (match_route_None _ _)) in Hno.
  unfold Router.handle. rewrite Hno. cbn.
  repeat split. eexists. repeat split.
Qed.

(** C2. An entry whose [storedAt + ttlSeconds] has come is not returned
    by [get]; and a cacheable read request whose key holds such an entry
    is forwarded: the call to the backend of its route is added to the
    calls made. *)
Theorem expired_entry_absent_then_refetched (now : Z) (k : string)
    (e : CacheEntry) (st : State World) :
  cache st !! k = Some e →
  storedAt e + CacheStore.ttlSeconds e ≤ now →
  get now k (cache st) = None
  ∧ ∀ req route,
      match_route routes (path req) = Some route →
      cacheable route = true →
      is_read (method_ req) = true →
      buildKey concat whitelist (method_ req) (path req) (query req)
        (req_headers req) = k →
      ∃ more, calls (handle now req st).2
              = calls st ++ outbound route req :: more.
Proof.
  intros Hk Hexp. pose proof (get_expired _ _ _ _ Hk Hexp) as Hget.
  split; [exact Hget|].
  intros req route Hroute Hc Hread Hkey.
  unfold Router.handle. rewrite Hroute, Hc, Hread, Hkey, Hget. cbn [andb].
  pose proof (forward_state (outbound route req) st) as [_ Hcalls].
  destruct (forward (outbound route req) st) as [o st1].
  cbn [snd] in Hcalls.
  assert (∃ more, calls st1 = calls st ++ outbound route req :: more)
    as Hmore by (destruct Hcalls as [-> | ->]; eauto).
  destruct o as [r| |]; [|exact Hmore..].
  destruct (resp_body r); [destruct (is_2xx (status r))|]; exact Hmore.
Qed.

(** C3. For a cacheable read request, when forwarding ends in a reply
    that is not 2xx, in unreachability or in a timeout, the Cache Store
    after the request is the one before.  On a miss the reply is
    returned as it is, unreachability gives a 502 and a timeout a 504. *)
Theorem failures_never_cached (now : Z) (req : Request) (route : Route)
    (st : State World) :
  match_route routes (path req) = Some route →
  cacheable route = true →
  is_read (method_ req) = true →
  (∀ r, (forward (outbound route req) st).1 = Replied r →
        is_2xx (status r) = false) →
  let res := handle now req st in
  cache res.2 = cache st
  ∧ (get now (buildKey concat whitelist (method_ req) (path req)
                (query req) (req_headers req)) (cache st) = None →
     match (forward (outbound route req) st).1 with
     | Replied r => res.1 = r
     | Unreachable => status res.1 = 502
     | TimedOut => status res.1 = 504
     end).
Proof.
  intros Hroute Hc Hread Hfail.
  unfold Router.handle. rewrite Hroute, Hc, Hread. cbn [andb].
  destruct (get now _ (cache st)) as [e|] eqn:Hget.
  { cbn. split; [reflexivity|discriminate]. }
  pose proof (forward_state (outbound route req) st) as [Hcache _].
  destruct (forward (outbound route req) st) as [o st1].
  cbn [fst snd] in *.
  destruct o as [r| |]; cbn; [|auto..].
  rewrite (Hfail r eq_refl).
  destruct (resp_body r); cbn; auto.
Qed.

End Routing.

(* ================================================================== *)
(** * The statements at sample inputs *)
(* ================================================================== *)

Section Instances.
Import Js Http CacheStore KeyBuilder RouteTable Router Samples.
Local Open Scope list_scope.


(** The entry stored at 100 for 30 seconds is gone at 130, and the
    request for its key goes to the backend. *)
Lemma expired_entry_absent_then_refetched_witness :
  get 130 key0 (cache (state1 users0)) = None
  ∧ ∃ more,
      calls (Router.handle Tagged.concat built_under0 whitelist0 routes0
               _ users_backend 130 get_users_request (state1 users0)).2
      = [] ++ outbound
                {| pathPrefix := "/api/users";
                   targetBaseURL := "http://user-service:3001";
                   cacheable := true; RouteTable.ttlSeconds := 30 |}
                get_users_request :: more.
Proof.
  destruct (expired_entry_absent_then_refetched Tagged.concat built_under0
              whitelist0 routes0 _ users_backend 130 key0 entry0
              (state1 users0)) as [Hget Hcall].
  - apply lookup_singleton_eq.
  - cbn. lia.
  - split; [exact Hget|].
    apply Hcall; reflexivity.
Defined.

(** With the backend down, the request is answered 502 and the store
    stays empty. *)
Lemma failures_never_cached_witness :
  let res := Router.handle Tagged.concat built_under0 whitelist0 routes0
               _ down_backend 130 get_users_request (state0 tt) in
  cache res.2 = ∅ ∧ status res.1 = 502.
Proof.
  destruct (failures_never_cached Tagged.concat built_under0 whitelist0
              routes0 _ down_backend 130 get_users_request
              {| pathPrefix := "/api/users";
                 targetBaseURL := "http://user-service:3001";
                 cacheable := true; RouteTable.ttlSeconds := 30 |}
              (state0 tt)) as [Hcache Hres].
  - reflexivity.
  - reflexivity.
  - reflexivity.
  - intros r H. discriminate H.
  - split; [exact Hcache|]. apply Hres. reflexivity.
Defined.

(** [/static/logo.png] is under no route. *)
Lemma no_route_404_witness :
  let res := Router.handle Tagged.concat built_under0 whitelist0 routes0
               _ users_backend 130 unknown_request (state1 users0) in
  status res.1 = 404 ∧ calls res.2 = [] ∧ res.2 = state1 users0.
Proof.
  destruct (no_route_404 Tagged.concat built_under0 whitelist0 routes0
              _ users_backend 130 unknown_request (state1 users0))
    as (Hs & _ & Hc & _ & Hst).
  - intros r Hr. apply elem_of_cons in Hr as [->|Hr]; [reflexivity|].
    apply list_elem_of_singleton in Hr as ->. reflexivity.
  - auto.
Defined.

(** A read and a write of each service. *)
Lemma read_handlers_leave_collections_witness :
  (UserService.handle env0 (UserService.GetUser "1") users0).2 = users0
  ∧ (ProductService.handle env0 ProductService.Categories products0).2
    = products0.
Proof.
  destruct (read_handlers_leave_collections env0 (UserService.GetUser "1")
              users0 ProductService.Categories products0)
    as (Hu & Hp & _).
  split; [apply Hu|apply Hp]; reflexivity.
Defined.


(** A second Maria. *)
Lemma post_users_conflict_witness :
  let r := UserService.post_users env0 (VStr "Maria Souza")
             (VStr "maria@example.com") VUndefined users0 in
  r.2 = users0 ∧ Http.statusCode r.1 = 409.
Proof.
  destruct (post_users_conflict env0 (VStr "Maria Souza")
              (VStr "maria@example.com") VUndefined users0
              {| UserService.id := "2";
                 UserService.name := VStr "Maria Santos";
                 UserService.email := VStr "maria@example.com";
                 UserService.role := VStr "user";
                 UserService.createdAt := t0;
                 UserService.updatedAt := None |})
    as (Hst & H409 & _).
  - apply list_elem_of_further, list_elem_of_here.
  - reflexivity.
  - split; [exact Hst|]. apply H409; reflexivity.
Defined.

(** A product at the price of -5. *)
Lemma post_products_rejected_witness :
  let r := ProductService.post_products env0 (VStr "Caneta")
             (VStr "Caneta azul") (VNum (of_Z (-5))) (VStr "office")
             VUndefined products0 in
  Http.statusCode r.1 = 400 ∧ r.2 = products0.
Proof.
  destruct (post_products_rejected env0 (VStr "Caneta")
              (VStr "Caneta azul") (VNum (of_Z (-5))) (VStr "office")
              VUndefined products0)
    as (Hs & _ & _ & Hst & _).
  - right. right. right. right. reflexivity.
  - auto.
Defined.

(** ** The end-to-end scenario *)

Abbreviation run := (Router.handle Tagged.concat built_under0 whitelist0
                       routes0 _ users_backend).

(** [GET /api/users/users] misses, is forwarded as [GET /users] to the
    user service and comes back as a 200 with the users under [data];
    the response is stored.  Twenty seconds later the same request is
    answered from the store, marked as such, without a second call.
    After [DELETE /cache] it misses again. *)
Example end_to_end :
  let '(r1, s1) := run 100 get_users_request (state0 users0) in
  let '(r2, s2) := run 120 get_users_request s1 in
  let '(_, s3) := clear_cache _ s2 in
  let '(r4, s4) := run 125 get_users_request s3 in
  status r1 = 200
  ∧ (Js.get "data" <$> resp_body r1)
    = Some (VArr (map UserService.user_json users0))
  ∧ (path ∘ outbound_request <$> calls s1) = ["/users"]
  ∧ (CacheStore.body <$> cache s1 !! key0) = resp_body r1
  ∧ resp_body r2 = resp_body r1
  ∧ status r2 = 200
  ∧ resp_headers r2 = ("X-Cache", "HIT") :: resp_headers r1
  ∧ length (calls s2) = 1%nat
  ∧ cache s3 = ∅
  ∧ r4 = r1
  ∧ length (calls s4) = 2%nat.
Proof. vm_compute. repeat split. Qed.

(** Past its thirty seconds the stored response is not served any
    more. *)
Example end_to_end_expiry :
  let '(r1, s1) := run 100 get_users_request (state0 users0) in
  let '(r2, s2) := run 130 get_users_request s1 in
  r2 = r1 ∧ length (calls s2) = 2%nat.
Proof. vm_compute. repeat split. Qed.

(** With the user service down the answer is a 502 with an error body,
    after two attempts, and nothing is stored. *)
Example end_to_end_down :
  let '(r, s) := Router.handle Tagged.concat built_under0 whitelist0
                   routes0 _ down_backend 100 get_users_request
                   (state0 tt) in
  status r = 502
  ∧ (has_field "error" <$> resp_body r) = Some true
  ∧ (has_field "message" <$> resp_body r) = Some true
  ∧ length (calls s) = 2%nat
  ∧ cache s = ∅.
Proof. vm_compute. repeat split. Qed.

(** Of two matching routes the one with the longer prefix is taken. *)
Example longest_prefix :
  let short := {| pathPrefix := "/api"; targetBaseURL := "http://a";
                  cacheable := false; RouteTable.ttlSeconds := 0 |} in
  match_route (short :: routes0) "/api/users/users"
  = Some {| pathPrefix := "/api/users";
            targetBaseURL := "http://user-service:3001";
            cacheable := true; RouteTable.ttlSeconds := 30 |}.
Proof. reflexivity. Qed.

End Instances.

(* ================================================================== *)
(** * More on the two services *)
(* ================================================================== *)

Section Arrays.
Import Js.
Local Open Scope list_scope.
Context {A : Type}.

(** [findIndex] returns the first index at which the predicate holds. *)
Lemma findIndex_first (p : A → bool) (l : list A) (i : nat) :
  findIndex p l = Some i →
  ∃ x, l !! i = Some x ∧ p x = true
       ∧ ∀ j y, (j < i)%nat → l !! j = Some y → p y = false.
Proof.
  revert i. induction l as [|a l IH]; intros i; cbn; [discriminate|].
  destruct (p a) eqn:Hp.
  - intros [= <-]. exists a. repeat split; auto. intros j y Hj. lia.
  - destruct (findIndex p l) as [k|]; cbn; [|discriminate].
    intros [= <-]. destruct (IH k eq_refl) as (x & Hx & Hpx & Hlt).
    exists x. repeat split; auto.
    intros [|j] y Hj; cbn; [intros [= <-]; exact Hp|].
    apply Hlt. lia.
Qed.

Lemma findIndex_absent (p : A → bool) (l : list A) :
  (∀ x, x ∈ l → p x = false) → findIndex p l = None.
Proof.
  induction l as [|a l IH]; intros H; cbn; [reflexivity|].
  rewrite (H a) by apply list_elem_of_here.
  rewrite IH; [reflexivity|]. intros x Hx. apply H. now apply list_elem_of_further.
Qed.

(** [find] returns the element at the index that [findIndex] returns. *)
Lemma find_findIndex (p : A → bool) (l : list A) :
  List.find p l = findIndex p l ≫= (l !!.).
Proof.
  induction l as [|a l IH]; cbn; [reflexivity|].
  destruct (p a); [reflexivity|]. rewrite IH.
  now destruct (findIndex p l).
Qed.

Lemma splice1_delete (i : nat) (l : list A) : splice1 i l = delete i l.
Proof. unfold splice1. now rewrite delete_take_drop. Qed.

Lemma alter_as_insert (f : A → A) (i : nat) (l : list A) (x : A) :
  l !! i = Some x → alter f i l = <[i := f x]> l.
Proof.
  intros Hx. apply list_eq. intros j.
  rewrite list_lookup_alter, list_lookup_insert.
  destruct (decide (i = j)) as [->|]; [|now rewrite decide_False by tauto].
  rewrite Hx. cbn. rewrite decide_True; [reflexivity|].
  split; [reflexivity|]. now apply lookup_lt_Some in Hx.
Qed.

(** Under keys that are all different, the index of a key is the place of
    its element. *)
Lemma findIndex_key (key : A → string) (l : list A) (k : nat) (x : A) :
  NoDup (key <$> l) → l !! k = Some x →
  findIndex (λ y, String.eqb (key y) (key x)) l = Some k.
Proof.
  revert k. induction l as [|a l IH]; intros k Hnd Hk; [discriminate|].
  cbn in Hnd. apply NoDup_cons in Hnd as [Hnotin Hnd]. cbn.
  destruct k as [|k]; cbn in Hk.
  - injection Hk as ->. now rewrite String.eqb_refl.
  - destruct (String.eqb_spec (key a) (key x)) as [Heq|_].
    + destruct Hnotin. rewrite Heq. apply list_elem_of_fmap_2.
      eapply list_elem_of_lookup_2; eauto.
    + now rewrite (IH k Hnd Hk).
Qed.

Lemma findIndex_no_key (key : A → string) (l : list A) (i : string) :
  i ∉ key <$> l → findIndex (λ y, String.eqb (key y) i) l = None.
Proof.
  intros Hi. apply findIndex_absent. intros x Hx.
  apply String.eqb_neq. intros <-. apply Hi. now apply list_elem_of_fmap_2.
Qed.

(** An update that keeps the key keeps the index of every key. *)
Lemma findIndex_insert_key (key : A → string) (l : list A) (k : nat)
    (x x' : A) (i : string) :
  l !! k = Some x → key x' = key x →
  findIndex (λ y, String.eqb (key y) i) (<[k := x']> l)
  = findIndex (λ y, String.eqb (key y) i) l.
Proof.
  revert k. induction l as [|a l IH]; intros k Hk Hkey; [discriminate|].
  destruct k as [|k].
  - cbn in Hk. injection Hk as ->.
    change (<[0%nat := x']> (x :: l)) with (x' :: l).
    cbn [findIndex]. now rewrite Hkey.
  - change (<[S k := x']> (a :: l)) with (a :: <[k := x']> l).
    cbn [findIndex]. cbn in Hk. now rewrite (IH k Hk Hkey).
Qed.

Lemma fmap_insert_key {B} (key : A → B) (l : list A) (k : nat) (x x' : A) :
  l !! k = Some x → key x' = key x → key <$> <[k := x']> l = key <$> l.
Proof.
  intros Hk Hkey. rewrite list_fmap_insert, Hkey.
  apply list_insert_id. now rewrite list_lookup_fmap, Hk.
Qed.


Lemma filter_raising_total (p : A → option bool) (l : list A) :
  (∀ x, x ∈ l → is_Some (p x)) → is_Some (Http.filter_raising p l).
Proof.
  induction l as [|a l IH]; intros H; cbn; [eauto|].
  destruct (H a (list_elem_of_here _ _)) as [b ->]. cbn.
  destruct IH as [r ->]; [|cbn; eauto].
  intros x Hx. apply H. now apply list_elem_of_further.
Qed.

End Arrays.

Section UsersMore.
Import Js Http UserService Conditions.
Local Open Scope list_scope.

Lemma number_eqb_sym (a b : number) : eqb a b = eqb b a.
Proof. destruct a, b; cbn; try reflexivity. apply Qeq_bool_comm. Qed.

Lemma strict_eq_sym (a b : value) : strict_eq a b = strict_eq b a.
Proof.
  destruct a, b; cbn; try reflexivity.
  - now destruct b, b0.
  - apply number_eqb_sym.
  - apply String.eqb_sym.
Qed.

Lemma find_app_absent {A} (p : A → bool) (l k : list A) :
  (∀ x, x ∈ l → p x = false) → List.find p (l ++ k) = List.find p k.
Proof.
  induction l as [|a l IH]; intros H; cbn; [reflexivity|].
  rewrite (H a) by apply list_elem_of_here.
  apply IH. intros x Hx. apply H. now apply list_elem_of_further.
Qed.

Lemma find_absent {A} (p : A → bool) (l : list A) :
  (∀ x, x ∈ l → p x = false) → List.find p l = None.
Proof.
  intros H. rewrite <- (app_nil_r l). now rewrite find_app_absent.
Qed.

(** ** Creating a user *)

(** X1. A [POST /users] with a name and an email, the email being that
    of no stored user, answers 201 and adds one user at the end, with the
    identifier drawn, the role [user] when none is given, and the current
    instant; when the identifier is new, [GET /users/:id] then returns
    that user. *)
Theorem post_users_created (env : Env) (name email role : value)
    (users : list User) :
  truthy name = true → truthy email = true →
  (∀ u, u ∈ users → strict_eq (UserService.email u) email = false) →
  let newUser :=
    {| id := uuid env; UserService.name := name;
       UserService.email := email;
       UserService.role := default_to (VStr "user") role;
       createdAt := now env; updatedAt := None |} in
  post_users env name email role users
  = (status_json 201
       (VObj [ ("data", user_json newUser);
               ("message", VStr "User created successfully") ]),
     users ++ [newUser])
  ∧ (uuid env ∉ id <$> users →
     get_user (uuid env) (users ++ [newUser])
     = json (VObj [("data", user_json newUser)])).
Proof.
  intros Hn He Hfree newUser. split.
  - unfold post_users. rewrite Hn, He. cbn [negb orb].
    now rewrite (find_absent _ _ Hfree).
  - intros Hid. unfold get_user. rewrite find_app_absent.
    + cbn. now rewrite String.eqb_refl.
    + intros x Hx. apply String.eqb_neq. intros Heq. apply Hid.
      rewrite <- Heq. now apply list_elem_of_fmap_2.
Qed.

(** X2. [POST /users] keeps the emails apart: if no two stored users
    have the same email, none have after the request, whatever it
    carries. *)
Theorem post_users_keeps_emails_distinct (env : Env)
    (name email role : value) (users : list User) :
  emails_distinct users →
  emails_distinct (post_users env name email role users).2.
Proof.
  intros Hd. unfold post_users.
  destruct (negb (truthy name) || negb (truthy email)); [exact Hd|].
  destruct (List.find _ users) as [existingUser|] eqn:Hfind; [exact Hd|].
  cbn [snd]. pose proof (find_none _ _ Hfind) as Hnone. cbn in Hnone.
  intros i j ui uj Hi Hj Hij.
  apply lookup_app_Some in Hi as [Hi|[Hil Hi]];
    apply lookup_app_Some in Hj as [Hj|[Hjl Hj]].
  - eauto.
  - apply list_lookup_singleton_Some in Hj as [_ <-]. cbn.
    apply Hnone, list_elem_of_In. eapply list_elem_of_lookup_2; eauto.
  - apply list_lookup_singleton_Some in Hi as [_ <-]. cbn.
    rewrite strict_eq_sym.
    apply Hnone, list_elem_of_In. eapply list_elem_of_lookup_2; eauto.
  - apply list_lookup_singleton_Some in Hi as [Hi _].
    apply list_lookup_singleton_Some in Hj as [Hj _]. lia.
Qed.

(** ** Reading, updating and deleting a user *)

(** X3. When the identifiers are all different, [GET /users/:id] with the
    identifier of a stored user answers 200 with that user. *)
Theorem get_user_by_id (users : list User) (u : User) :
  NoDup (id <$> users) → u ∈ users →
  get_user (id u) users = json (VObj [("data", user_json u)]).
Proof.
  intros Hnd [k Hk]%list_elem_of_lookup. unfold get_user.
  rewrite find_findIndex, (findIndex_key id users k u Hnd Hk). cbn.
  now rewrite Hk.
Qed.

(** X4. Under an identifier that no stored user has, reading, updating
    and deleting answer 404 with an [{error, message}] body and leave the
    users as they are, whatever the body of the request. *)
Theorem unknown_user_404 (env : Env) (i : string)
    (name email role : value) (users : list User) :
  i ∉ id <$> users →
  get_user i users = user_not_found i
  ∧ put_user env i name email role users = (user_not_found i, users)
  ∧ delete_user i users = (user_not_found i, users)
  ∧ statusCode (user_not_found i) = 404
  ∧ has_field "error" (body (user_not_found i)) = true
  ∧ has_field "message" (body (user_not_found i)) = true.
Proof.
  intros Hi. pose proof (findIndex_no_key id users i Hi) as Hnone.
  unfold get_user, put_user, delete_user.
  rewrite find_findIndex, Hnone. repeat split.
Qed.

Lemma put_user_found (env : Env) (i : string) (name email role : value)
    (users : list User) (k : nat) (u : User) :
  findIndex (λ u, String.eqb (id u) i) users = Some k →
  users !! k = Some u →
  put_user env i name email role users
  = (json (VObj [ ("data", user_json (updated_user env name email role u));
                  ("message", VStr "User updated successfully") ]),
     <[k := updated_user env name email role u]> users).
Proof.
  intros Hfind Hk. unfold put_user. rewrite Hfind. cbn zeta.
  assert (k < length users)%nat as Hlt by now apply lookup_lt_Some in Hk.
  unfold updated_user, at_json.
  destruct (truthy name), (truthy email), (truthy role);
    rewrite ?list_alter_alter_eq, (alter_as_insert _ _ _ _ Hk),
      (list_lookup_insert_eq users k _ Hlt);
    reflexivity.
Qed.

(** X5. A [PUT /users/:id] that finds its user answers 200 and replaces
    that user by the updated one: the identifier and the creation instant
    are kept, a field is replaced only by a truthy value, [updatedAt] is
    the current instant; the other users stay.  Sent a second time at the
    same instant, the request changes nothing more. *)
Theorem put_user_updates (env : Env) (i : string) (name email role : value)
    (users : list User) (k : nat) (u : User) :
  findIndex (λ u, String.eqb (id u) i) users = Some k →
  users !! k = Some u →
  let r := put_user env i name email role users in
  statusCode r.1 = 200
  ∧ r.2 = <[k := updated_user env name email role u]> users
  ∧ length r.2 = length users
  ∧ id <$> r.2 = id <$> users
  ∧ put_user env i name email role r.2 = r.
Proof.
  intros Hfind Hk. cbn zeta.
  rewrite (put_user_found env i name email role users k u Hfind Hk).
  cbn [fst snd]. split; [reflexivity|]. split; [reflexivity|].
  split; [apply length_insert|].
  split; [now apply (fmap_insert_key id users k u)|].
  assert (k < length users)%nat as Hlt by now apply lookup_lt_Some in Hk.
  rewrite (put_user_found env i name email role _ k
             (updated_user env name email role u)).
  - rewrite list_insert_insert_eq. unfold updated_user. cbn.
    now destruct (truthy name), (truthy email), (truthy role).
  - now rewrite (findIndex_insert_key id users k u).
  - now apply list_lookup_insert_eq.
Qed.

End UsersMore.

Section UsersMore2.
Import Js Http UserService Conditions.
Local Open Scope list_scope.

Lemma NoDup_delete_notin {A} (l : list A) (k : nat) (x : A) :
  NoDup l → l !! k = Some x → x ∉ delete k l.
Proof.
  intros Hnd Hk. rewrite delete_take_drop.
  rewrite <- (take_drop_middle l k x Hk) in Hnd.
  apply NoDup_app in Hnd as (_ & Hleft & Hright).
  apply NoDup_cons in Hright as [Hright _].
  intros [H|H]%elem_of_app; [|done].
  apply (Hleft x H). apply list_elem_of_here.
Qed.

(** X6. A [DELETE /users/:id] that finds its user answers 200 with that
    user and removes it and no other: the remaining users keep their
    order.  When the identifiers are all different, [GET /users/:id]
    answers 404 afterwards. *)
Theorem delete_user_removes (i : string) (users : list User) (k : nat)
    (u : User) :
  findIndex (λ u, String.eqb (id u) i) users = Some k →
  users !! k = Some u →
  let r := delete_user i users in
  r.1 = json (VObj [ ("data", user_json u);
                     ("message", VStr "User deleted successfully") ])
  ∧ r.2 = take k users ++ drop (S k) users
  ∧ S (length r.2) = length users
  ∧ r.2 `sublist_of` users
  ∧ (NoDup (id <$> users) → get_user i r.2 = user_not_found i).
Proof.
  intros Hfind Hk. unfold delete_user. rewrite Hfind. cbn [fst snd].
  unfold at_json. rewrite Hk, splice1_delete.
  split; [reflexivity|]. split; [apply delete_take_drop|].
  split.
  { rewrite length_delete by eauto.
    apply lookup_lt_Some in Hk. lia. }
  split; [apply sublist_delete|].
  intros Hnd. unfold get_user. rewrite find_findIndex.
  destruct (findIndex_first _ _ _ Hfind) as (u' & Hu' & Hid & _).
  rewrite Hk in Hu'. injection Hu' as <-. apply String.eqb_eq in Hid as <-.
  rewrite findIndex_no_key; [reflexivity|].
  rewrite list_fmap_delete. apply NoDup_delete_notin; [done|].
  now rewrite list_lookup_fmap, Hk.
Qed.

(** X7. The identifiers stay all different: if they are before a
    request, and the identifier drawn for it is new, they are after it,
    whatever the request. *)
Theorem user_ids_stay_distinct (env : Env) (r : request) (users : list User) :
  NoDup (id <$> users) → uuid env ∉ id <$> users →
  NoDup (id <$> (handle env r users).2).
Proof.
  intros Hnd Hnew. destruct r as [| | |n e ro|i n e ro|i| |]; cbn [handle snd];
    try exact Hnd.
  - unfold post_users.
    destruct (negb (truthy n) || negb (truthy e)); [exact Hnd|].
    destruct (List.find _ users); [exact Hnd|].
    cbn [snd]. rewrite fmap_app. apply NoDup_app. split; [done|].
    split; [|apply NoDup_singleton].
    cbn. intros x Hx ->%list_elem_of_singleton. contradiction.
  - destruct (findIndex (λ u, String.eqb (id u) i) users) as [k|] eqn:Hfind.
    + destruct (findIndex_first _ _ _ Hfind) as (u & Hu & _).
      rewrite (put_user_found env i n e ro users k u Hfind Hu). cbn [snd].
      now rewrite (fmap_insert_key id users k u).
    + unfold put_user. now rewrite Hfind.
  - unfold delete_user.
    destruct (findIndex _ users) as [k|]; [|exact Hnd].
    cbn [snd]. rewrite splice1_delete.
    eapply sublist_NoDup;
      first [exact Hnd | apply fmap_sublist, sublist_delete].
Qed.

(** X8. [PUT /users/:id] does not look at the emails of the other users:
    given the email of another stored user, it answers 200 and leaves two
    users with one email. *)
Theorem put_user_email_unchecked (env : Env) (i : string)
    (users : list User) (k j : nat) (uk uj : User) :
  findIndex (λ u, String.eqb (id u) i) users = Some k →
  users !! k = Some uk → users !! j = Some uj → j ≠ k →
  truthy (email uj) = true →
  strict_eq (email uj) (email uj) = true →
  let r := put_user env i VUndefined (email uj) VUndefined users in
  statusCode r.1 = 200
  ∧ ¬ emails_distinct r.2.
Proof.
  intros Hfind Hk Hj Hjk Ht Heq. cbn zeta.
  rewrite (put_user_found env i _ _ _ users k uk Hfind Hk). cbn [fst snd].
  split; [reflexivity|]. intros Hd.
  assert (k < length users)%nat as Hlt by now apply lookup_lt_Some in Hk.
  specialize (Hd k j _ uj (list_lookup_insert_eq users k _ Hlt)).
  rewrite list_lookup_insert_ne in Hd by congruence.
  specialize (Hd Hj ltac:(congruence)). unfold updated_user in Hd.
  cbn in Hd. rewrite Ht in Hd. congruence.
Qed.

End UsersMore2.

Section Paging.
Import Js Http Conditions.
Local Open Scope list_scope.

Lemma Qred_of_Z (q : Q) (z : Z) : (q == inject_Z z)%Q → Qred q = inject_Z z.
Proof.
  intros H. rewrite <- (inject_Z_Qred z). now apply Qred_complete.
Qed.

Lemma of_Z_sub (a b : Z) : sub (of_Z a) (of_Z b) = of_Z (a - b).
Proof.
  unfold sub, of_Z. f_equal. apply Qred_of_Z.
  unfold Z.sub, Qminus. now rewrite inject_Z_plus, inject_Z_opp.
Qed.

Lemma of_Z_mul (a b : Z) : mul (of_Z a) (of_Z b) = of_Z (a * b).
Proof.
  unfold mul, of_Z. f_equal. apply Qred_of_Z. now rewrite inject_Z_mult.
Qed.


(** A slice between two indices that are in order. *)
Lemma slice_between {A} (l : list A) (s e : Z) :
  0 ≤ s ≤ e →
  slice l (of_Z s) (of_Z e)
  = take (Z.to_nat (e - s)) (drop (Z.to_nat s) l).
Proof.
  intros [Hs He]. unfold slice, relIndex, of_Z, Qtrunc.
  cbn [inject_Z Qnum Qden]. rewrite !Z.quot_1_r.
  destruct (Z.ltb_spec s 0); [exfalso; lia|].
  destruct (Z.ltb_spec e 0); [exfalso; lia|].
  destruct (Z.le_gt_cases s (Z.of_nat (length l))) as [Hle|Hgt].
  - rewrite (Z.min_l s) by lia.
    rewrite <- (take_min_length (Z.to_nat (e - s))).
    f_equal. rewrite length_drop. lia.
  - rewrite (Z.min_r s) by lia. rewrite Nat2Z.id.
    rewrite !drop_ge by lia. now rewrite !take_nil.
Qed.

Lemma ToNumber_defined (v : value) (z : Z) :
  ToNumber v = Some (of_Z z) →
  is_undefined v = false ∧ parseInt v = Some (parse_int v).
Proof.
  unfold ToNumber, parseInt. destruct (printable v); [|discriminate].
  intros [= H]. split; [|reflexivity]. now destruct v.
Qed.

(** X9. [GET /users] with a page [p >= 1] and a limit [l >= 0] that read
    as whole numbers answers 200 with, under [data], the [l] users that
    follow the first [(p - 1) * l] of the users that pass the role
    filter; [total] counts the users that pass the filter, not those of
    the page. *)
Theorem get_users_page (page limit role : value) (p l : Z)
    (users : list UserService.User) :
  ToNumber page = Some (of_Z p) → ToNumber limit = Some (of_Z l) →
  1 ≤ p → 0 ≤ l →
  let filtered :=
    if truthy role
    then List.filter (λ u, strict_eq (UserService.role u) role) users
    else users in
  let r := UserService.get_users page limit role users in
  statusCode r = 200
  ∧ get "data" (body r)
    = VArr (map UserService.user_json
              (take (Z.to_nat l) (drop (Z.to_nat ((p - 1) * l)) filtered)))
  ∧ get "total" (get "pagination" (body r))
    = VNum (of_nat (length filtered)).
Proof.
  intros Hp Hl Hp1 Hl0.
  destruct (ToNumber_defined _ _ Hp) as [Hup Hip].
  destruct (ToNumber_defined _ _ Hl) as [Hul Hil].
  unfold UserService.get_users, default_to. rewrite Hup, Hul, Hp, Hl, Hip, Hil.
  cbn [mbind option_bind caught]. change one with (of_Z 1).
  rewrite of_Z_sub, !of_Z_mul, slice_between by nia.
  replace (p * l - (p - 1) * l) with l by lia.
  repeat split.
Qed.

End Paging.

Section Searching.
Import Js Http Conditions.
Local Open Scope list_scope.





End Searching.



Section Shapes.
Import Js Http.
Local Open Scope list_scope.


End Shapes.

Section ProductsMore.
Import Js Http ProductService Conditions.
Local Open Scope list_scope.

Lemma fmap_alter_key {A B} (key : A → B) (f : A → A) (k : nat) (l : list A) :
  (∀ x, key (f x) = key x) → key <$> alter f k l = key <$> l.
Proof.
  intros Hf. revert k. induction l as [|a l IH]; intros [|k]; cbn;
    f_equal; auto.
Qed.

(** X12. Under an identifier that no stored product has, reading,
    updating, deleting and changing the stock answer 404 with an
    [{error, message}] body and leave the products as they are, whatever
    the body of the request: the identifier is looked up before the body
    is examined. *)
Theorem unknown_product_404 (env : Env) (i : string)
    (name description price category stock quantity operation : value)
    (products : list Product) :
  i ∉ id <$> products →
  get_product i products = product_not_found i
  ∧ put_product env i name description price category stock products
    = (product_not_found i, products)
  ∧ delete_product i products = (product_not_found i, products)
  ∧ patch_stock env i quantity operation products
    = (product_not_found i, products)
  ∧ statusCode (product_not_found i) = 404
  ∧ has_field "error" (body (product_not_found i)) = true
  ∧ has_field "message" (body (product_not_found i)) = true.
Proof.
  intros Hi. pose proof (findIndex_no_key id products i Hi) as Hnone.
  unfold get_product, put_product, delete_product, patch_stock.
  rewrite find_findIndex, Hnone. repeat split.
Qed.

(** X13. The identifiers of the products stay all different: if they are
    before a request, and the identifier drawn for it is new, they are
    after it, whatever the request, also when it ends in a 500. *)
Theorem product_ids_stay_distinct (env : Env) (r : request)
    (products : list Product) :
  NoDup (id <$> products) → uuid env ∉ id <$> products →
  NoDup (id <$> (handle env r products).2).
Proof.
  intros Hnd Hnew.
  destruct r as [| | |n d p c s|i n d p c s|i| | |i q o|]; cbn [handle snd];
    try exact Hnd.
  - unfold post_products.
    repeat case_match; cbn [snd]; try exact Hnd.
    rewrite fmap_app. apply NoDup_app. split; [done|].
    split; [|apply NoDup_singleton].
    cbn. intros x Hx ->%list_elem_of_singleton. contradiction.
  - unfold put_product.
    repeat case_match; simplify_option_eq; cbn [snd];
      rewrite ?fmap_alter_key by reflexivity; exact Hnd.
  - unfold delete_product. case_match; [|exact Hnd].
    cbn [snd]. rewrite splice1_delete.
    eapply sublist_NoDup;
      first [exact Hnd | apply fmap_sublist, sublist_delete].
  - unfold patch_stock.
    repeat case_match; cbn [snd];
      rewrite ?fmap_alter_key by reflexivity; exact Hnd.
Qed.

End ProductsMore.

Section ProductShapes.
Import Js Http.
Local Open Scope list_scope.


End ProductShapes.

Section ProductsListing.
Import Js Http ProductService Conditions.
Local Open Scope list_scope.






End ProductsListing.

Section ProductsWriting.
Import Js Http ProductService Conditions.
Local Open Scope list_scope.









(** X19. [PUT /products/:id] is not all or nothing: when the price of
    the request is an object that cannot be read as a number, the answer
    is 500, but the name and the description of the request have already
    replaced those of the product; the other fields, [updatedAt]
    included, are as before. *)
Theorem put_product_raises_after_writes (env : Env) (i : string)
    (name description price category stock : value)
    (products : list Product) (k : nat) (p : Product) :
  findIndex (λ p, String.eqb (id p) i) products = Some k →
  products !! k = Some p →
  truthy price = true → printable price = false →
  let r := put_product env i name description price category stock
             products in
  r.1 = internal_error
  ∧ r.2
    = <[k := {| id := id p;
                ProductService.name :=
                  if truthy name then name else ProductService.name p;
                ProductService.description :=
                  if truthy description then description
                  else ProductService.description p;
                price := ProductService.price p;
                ProductService.category := ProductService.category p;
                ProductService.stock := ProductService.stock p;
                createdAt := createdAt p;
                updatedAt := updatedAt p |}]> products.
Proof.
  intros Hfind Hk Ht Hp. cbn zeta. unfold put_product.
  rewrite Hfind, Ht. unfold parseFloat. rewrite Hp. cbn [fmap option_fmap option_map].
  cbn [fst snd]. split; [reflexivity|].
  destruct (truthy name), (truthy description);
    rewrite ?list_alter_alter_eq, ?(alter_as_insert _ _ _ _ Hk);
    try reflexivity.
  symmetry. apply list_insert_id. rewrite Hk. now destruct p.
Qed.

End ProductsWriting.

Section ProductsReading.
Import Js Http ProductService Conditions.
Local Open Scope list_scope.

Lemma seen_string (s : string) (seen : list value) :
  existsb (same_value_zero (VStr s)) seen = true ↔ VStr s ∈ seen.
Proof.
  rewrite existsb_exists. split.
  - intros (v & Hv%list_elem_of_In & Heq).
    destruct v; try discriminate Heq. cbn in Heq.
    now apply String.eqb_eq in Heq as ->.
  - intros H. exists (VStr s). split; [now apply list_elem_of_In|].
    cbn. apply String.eqb_refl.
Qed.

Lemma distinct_from_strings (seen l : list value) :
  (∀ v, v ∈ l → is_string v = true) →
  NoDup (distinct_from seen l)
  ∧ ∀ v, v ∈ distinct_from seen l ↔ v ∈ l ∧ v ∉ seen.
Proof.
  revert seen. induction l as [|x l IH]; intros seen Hstr; cbn.
  - split; [constructor|]. intros v. split; [inversion 1|].
    intros [H _]. inversion H.
  - assert (is_string x = true) as Hx by apply Hstr, list_elem_of_here.
    destruct x as [| | | |s| |]; try discriminate Hx.
    assert (∀ v, v ∈ l → is_string v = true) as Hl
      by (intros v Hv; apply Hstr; now apply list_elem_of_further).
    destruct (existsb _ seen) eqn:Hseen.
    + apply seen_string in Hseen.
      destruct (IH seen Hl) as [Hnd Hin]. split; [exact Hnd|].
      intros v. rewrite Hin, elem_of_cons. split; [tauto|].
      intros [[->|Hv] Hns]; [contradiction|tauto].
    + assert (VStr s ∉ seen) as Hnot
        by (intros H%seen_string; congruence).
      destruct (IH (VStr s :: seen) Hl) as [Hnd Hin]. split.
      * constructor; [|exact Hnd]. rewrite Hin, elem_of_cons. tauto.
      * intros v. rewrite !elem_of_cons, Hin, elem_of_cons. split.
        -- intros [->|[Hv Hns]]; [tauto|]. tauto.
        -- intros [[->|Hv] Hns]; [tauto|].
           pose proof (Hl v Hv) as Hsv.
           destruct v as [| | | |t| |]; try discriminate Hsv.
           destruct (decide (t = s)) as [->|Hne]; [tauto|].
           right. split; [exact Hv|]. intros [[= Ht]|Hin']; tauto.
Qed.

(** X20. When the categories of the stored products are strings,
    [GET /categories] answers 200 with each category once, and [count]
    is their number: a category is listed exactly when a product has
    it. *)
Theorem categories_each_once (products : list Product) :
  (∀ p, p ∈ products → is_string (category p) = true) →
  ∃ categories,
    get_categories products
    = json (VObj [ ("data", VArr categories);
                   ("count", VNum (of_nat (length categories))) ])
    ∧ NoDup categories
    ∧ ∀ v, v ∈ categories ↔ ∃ p, p ∈ products ∧ category p = v.
Proof.
  intros Hstr. exists (distinct (map category products)).
  split; [reflexivity|].
  destruct (distinct_from_strings [] (map category products)) as [Hnd Hin].
  { intros v (p & <- & Hp%list_elem_of_In)%list_elem_of_In%in_map_iff. auto. }
  split; [exact Hnd|]. intros v. unfold distinct. rewrite Hin.
  split.
  - intros [(p & <- & Hp%list_elem_of_In)%list_elem_of_In%in_map_iff _]. eauto.
  - intros (p & Hp & <-). split; [|inversion 1].
    apply list_elem_of_In, in_map, list_elem_of_In, Hp.
Qed.


(** X22. When the identifiers are all different, [GET /products/:id]
    with the identifier of a stored product answers 200 with that
    product; and a [DELETE /products/:id] that finds its product answers
    200 with it, removes it and no other, and makes a later
    [GET /products/:id] answer 404. *)
Theorem product_read_and_delete (products : list Product) (k : nat)
    (p : Product) :
  NoDup (id <$> products) → products !! k = Some p →
  let r := delete_product (id p) products in
  get_product (id p) products = json (VObj [("data", product_json p)])
  ∧ r.1 = json (VObj [ ("data", product_json p);
                       ("message", VStr "Product deleted successfully") ])
  ∧ r.2 = take k products ++ drop (S k) products
  ∧ S (length r.2) = length products
  ∧ get_product (id p) r.2 = product_not_found (id p).
Proof.
  intros Hnd Hk. cbn zeta.
  pose proof (findIndex_key id products k p Hnd Hk) as Hfind.
  unfold get_product, delete_product. rewrite !find_findIndex, Hfind.
  cbn [mbind option_bind fst snd]. unfold at_json. rewrite Hk, splice1_delete.
  split; [reflexivity|]. split; [reflexivity|].
  split; [apply delete_take_drop|]. split.
  { rewrite length_delete by eauto. apply lookup_lt_Some in Hk. lia. }
  rewrite findIndex_no_key; [reflexivity|].
  rewrite list_fmap_delete. apply NoDup_delete_notin; [done|].
  now rewrite list_lookup_fmap, Hk.
Qed.

End ProductsReading.

(* ================================================================== *)
(** * The further statements at sample inputs *)
(* ================================================================== *)

Section MoreInstances.
Import Js Http Conditions Samples.
Local Open Scope list_scope.

(** A decidable statement about the sample data, by evaluation. *)
Ltac evaluated := compute_done.

Lemma users0_ids : NoDup (UserService.id <$> users0).
Proof. evaluated. Defined.

Lemma products0_ids : NoDup (ProductService.id <$> products0).
Proof. evaluated. Defined.

Lemma users0_emails : emails_distinct users0.
Proof.
  intros [|[|[|i]]] [|[|[|j]]] ui uj Hi Hj Hij; cbn in Hi, Hj;
    try discriminate Hi; try discriminate Hj;
    injection Hi as <-; injection Hj as <-;
    first [reflexivity | now destruct Hij].
Defined.


Lemma products0_strings (p : ProductService.Product) :
  p ∈ products0 →
  is_string (ProductService.name p) = true
  ∧ is_string (ProductService.description p) = true
  ∧ is_string (ProductService.category p) = true.
Proof.
  intros Hp. repeat (apply elem_of_cons in Hp as [->|Hp]; [now repeat split|]).
  inversion Hp.
Defined.

Import MoreSamples.

(** Ana is new. *)
Lemma post_users_created_witness :
  let r := UserService.post_users env0 (VStr "Ana Lima")
             (VStr "ana@example.com") VUndefined users0 in
  statusCode r.1 = 201
  ∧ length r.2 = 4%nat
  ∧ statusCode (UserService.get_user (uuid env0) r.2) = 200.
Proof.
  destruct (post_users_created env0 (VStr "Ana Lima")
              (VStr "ana@example.com") VUndefined users0) as [Hpost Hget].
  - reflexivity.
  - reflexivity.
  - intros u Hu. repeat (apply elem_of_cons in Hu as [->|Hu]; [reflexivity|]).
    inversion Hu.
  - cbn zeta. rewrite Hpost. cbn [fst snd]. split; [reflexivity|].
    split; [reflexivity|]. rewrite Hget; [reflexivity|]. evaluated.
Defined.

Lemma post_users_keeps_emails_distinct_witness :
  emails_distinct
    (UserService.post_users env0 (VStr "Ana Lima") (VStr "ana@example.com")
       VUndefined users0).2.
Proof. apply post_users_keeps_emails_distinct, users0_emails. Defined.

Lemma get_user_by_id_witness :
  UserService.get_user "2" users0
  = json (VObj [("data", UserService.user_json maria)]).
Proof.
  apply (get_user_by_id users0 maria users0_ids).
  apply list_elem_of_further, list_elem_of_here.
Defined.

Lemma unknown_user_404_witness :
  UserService.put_user env0 "99" (VStr "Nobody") VUndefined VUndefined users0
  = (UserService.user_not_found "99", users0).
Proof.
  destruct (unknown_user_404 env0 "99" (VStr "Nobody") VUndefined VUndefined
              users0) as (_ & Hput & _); [evaluated|exact Hput].
Defined.

Lemma put_user_updates_witness :
  let r := UserService.put_user env0 "2" (VStr "Maria S. Santos") (VStr "")
             VUndefined users0 in
  statusCode r.1 = 200
  ∧ UserService.name <$> r.2 !! 1%nat = Some (VStr "Maria S. Santos")
  ∧ UserService.email <$> r.2 !! 1%nat = Some (VStr "maria@example.com")
  ∧ UserService.put_user env0 "2" (VStr "Maria S. Santos") (VStr "")
      VUndefined r.2 = r.
Proof.
  destruct (put_user_updates env0 "2" (VStr "Maria S. Santos") (VStr "")
              VUndefined users0 1%nat maria eq_refl eq_refl)
    as (Hs & Hst & _ & _ & Hidem).
  cbn zeta. split; [exact Hs|]. rewrite Hst at 1 2.
  split; [reflexivity|]. split; [reflexivity|exact Hidem].
Defined.

Lemma delete_user_removes_witness :
  let r := UserService.delete_user "2" users0 in
  length r.2 = 2%nat
  ∧ UserService.get_user "2" r.2 = UserService.user_not_found "2".
Proof.
  destruct (delete_user_removes "2" users0 1%nat maria eq_refl eq_refl)
    as (_ & Hst & _ & _ & Hget).
  cbn zeta. split; [now rewrite Hst|]. exact (Hget users0_ids).
Defined.

Lemma user_ids_stay_distinct_witness :
  NoDup (UserService.id
           <$> (UserService.handle env0
                  (UserService.CreateUser (VStr "Ana Lima")
                     (VStr "ana@example.com") VUndefined) users0).2).
Proof.
  apply user_ids_stay_distinct; [exact users0_ids|evaluated].
Defined.

(** João takes the email of Maria. *)
Lemma put_user_email_unchecked_witness :
  let r := UserService.put_user env0 "1" VUndefined
             (VStr "maria@example.com") VUndefined users0 in
  statusCode r.1 = 200 ∧ ¬ emails_distinct r.2.
Proof.
  apply (put_user_email_unchecked env0 "1" users0 0%nat 1%nat joao maria);
    first [reflexivity | discriminate].
Defined.

Lemma get_users_page_witness :
  get "data"
    (body (UserService.get_users (VStr "2") (VStr "2") VUndefined users0))
  = VArr (map UserService.user_json (drop 2 users0)).
Proof.
  destruct (get_users_page (VStr "2") (VStr "2") VUndefined 2 2 users0)
    as (_ & Hdata & _); [reflexivity|reflexivity|lia|lia|exact Hdata].
Defined.


Lemma unknown_product_404_witness :
  ProductService.patch_stock env0 "99" VUndefined VUndefined products0
  = (ProductService.product_not_found "99", products0).
Proof.
  destruct (unknown_product_404 env0 "99" VUndefined VUndefined VUndefined
              VUndefined VUndefined VUndefined VUndefined products0)
    as (_ & _ & _ & Hpatch & _); [evaluated|exact Hpatch].
Defined.

Lemma product_ids_stay_distinct_witness :
  NoDup (ProductService.id
           <$> (ProductService.handle env0
                  (ProductService.UpdateProduct "1" (VStr "Galaxy S")
                     VUndefined unprintable VUndefined VUndefined)
                  products0).2).
Proof.
  apply product_ids_stay_distinct; [exact products0_ids|evaluated].
Defined.





Lemma put_product_raises_after_writes_witness :
  let r := ProductService.put_product env0 "2" (VStr "Notebook") VUndefined
             unprintable VUndefined VUndefined products0 in
  r.1 = internal_error
  ∧ ProductService.name <$> r.2 !! 1%nat = Some (VStr "Notebook").
Proof.
  destruct (put_product_raises_after_writes env0 "2" (VStr "Notebook")
              VUndefined unprintable VUndefined VUndefined products0 1%nat
              notebook eq_refl eq_refl eq_refl eq_refl) as [Hr Hst].
  cbn zeta. split; [exact Hr|]. rewrite Hst. reflexivity.
Defined.

Lemma categories_each_once_witness :
  ∃ categories,
    ProductService.get_categories products0
    = json (VObj [ ("data", VArr categories);
                   ("count", VNum (of_nat (length categories))) ])
    ∧ NoDup categories.
Proof.
  destruct (categories_each_once products0) as (cs & Hget & Hnd & _).
  - intros p Hp. now destruct (products0_strings p Hp) as (_ & _ & Hc).
  - exists cs. split; [exact Hget|exact Hnd].
Defined.


Lemma product_read_and_delete_witness :
  let r := ProductService.delete_product "2" products0 in
  ProductService.get_product "2" products0
  = json (VObj [("data", ProductService.product_json notebook)])
  ∧ length r.2 = 3%nat
  ∧ ProductService.get_product "2" r.2
    = ProductService.product_not_found "2".
Proof.
  destruct (product_read_and_delete products0 1%nat notebook products0_ids
              eq_refl) as (Hget & _ & Hst & _ & Hgone).
  cbn zeta. split; [exact Hget|]. split; [|exact Hgone].
  exact (eq_trans (f_equal length Hst) eq_refl).
Defined.

End MoreInstances.
